(** * spine-db: the metadata indexing pipeline

    A shallow embedding of [spine_db/extractor.py], [spine_db/indexer.py],
    the [SpineFile] table of [spine_db/schema.py], the [inject] command of
    [spine_db/cli.py] and the browse callbacks of [spine_db/app.py],
    followed by the properties of the pipeline.

    Python integers are [Z], [str] is [string], [None] is [None] of an
    option.  Code that can raise lives in a state-and-exception monad whose
    state survives a raise, as a mutated Python object does.  Every call
    the source makes outside a [try] can raise here too: resolving a path,
    testing that it exists, expanding a glob, querying the table. *)

From Stdlib Require Import ZArith QArith Qround String Ascii List Lia.
From stdpp Require Import base option list gmap strings pretty sorting.

Local Open Scope string_scope.
Local Open Scope list_scope.
Local Open Scope Z_scope.

(** ** Exceptions and the state-and-exception monad *)

(** The subclasses of [Exception] the pipeline can meet; the payload is
    what [str(e)] prints. *)
Inductive Exn : Type :=
| OSError (msg : string)
| TypeError (msg : string)
| AttributeError (msg : string)
| ValueError (msg : string)
| OverflowError (msg : string)
| RuntimeError (msg : string)
| IntegrityError (msg : string)
| OperationalError (msg : string).

Definition exn_str (e : Exn) : string :=
  match e with
  | OSError m | TypeError m | AttributeError m | ValueError m
  | OverflowError m | RuntimeError m | IntegrityError m | OperationalError m => m
  end.

(** A computation over a mutable state [S]: it ends with a value or with a
    raised exception, and in both cases leaves the state it reached. *)
Definition PyM (S A : Type) : Type := S -> S * (Exn + A).

Definition ret {S A} (a : A) : PyM S A := fun s => (s, inr a).

Definition raise {S A} (e : Exn) : PyM S A := fun s => (s, inl e).

(** A call into a library that returns or raises and touches no state. *)
Definition lift {S A} (r : Exn + A) : PyM S A := fun s => (s, r).

Definition bind {S A B} (m : PyM S A) (k : A -> PyM S B) : PyM S B :=
  fun s =>
    match m s with
    | (s', inr a) => k a s'
    | (s', inl e) => (s', inl e)
    end.

Definition modify {S} (f : S -> S) : PyM S unit := fun s => (f s, inr tt).

Definition gets {S A} (f : S -> A) : PyM S A := fun s => (s, inr (f s)).

(** [try: m except Exception as e: h e] *)
Definition try_except {S A} (m : PyM S A) (h : Exn -> PyM S A) : PyM S A :=
  fun s =>
    match m s with
    | (s', inl e) => h e s'
    | r => r
    end.

Notation "'do' x <- m ; k" := (bind m (fun x => k))
  (at level 10, x name, m at level 100, k at level 200).
Notation "'do_' m ; k" := (bind m (fun _ => k))
  (at level 10, m at level 100, k at level 200).

(** ** HDF5 containers as h5py and numpy show them *)

(** A float64: a finite value, an infinity or a NaN. *)
Inductive Float : Type :=
| Finite (q : Q)
| PosInf
| NegInf
| NaN.

(** The order of non-NaN floats. *)
Definition float_le (a b : Float) : bool :=
  match a, b with
  | NegInf, _ => true
  | _, PosInf => true
  | Finite x, Finite y => Qle_bool x y
  | _, _ => false
  end.

(** [np.minimum] and [np.maximum]: a NaN wins. *)
Definition float_min (a b : Float) : Float :=
  match a, b with
  | NaN, _ | _, NaN => NaN
  | _, _ => if float_le a b then a else b
  end.

Definition float_max (a b : Float) : Float :=
  match a, b with
  | NaN, _ | _, NaN => NaN
  | _, _ => if float_le a b then b else a
  end.

(** A one-dimensional numpy array of an integer or of a float dtype, and
    one element of it. *)
Inductive Array : Type :=
| IntArray (vals : list Z)
| FloatArray (vals : list Float).

Inductive Scalar : Type :=
| SInt (z : Z)
| SFloat (x : Float).

(** [len(a)] *)
Definition array_len (a : Array) : nat :=
  match a with
  | IntArray vals => length vals
  | FloatArray vals => length vals
  end.

(** [a[0]], for a non-empty [a] *)
Definition array_first (a : Array) : option Scalar :=
  match a with
  | IntArray vals => SInt <$> head vals
  | FloatArray vals => SFloat <$> head vals
  end.

(** [np.min(a)] and [np.max(a)] *)
Definition np_min {S} (a : Array) : PyM S Scalar :=
  match a with
  | IntArray (x :: xs) => ret (SInt (fold_left Z.min xs x))
  | FloatArray (x :: xs) => ret (SFloat (fold_left float_min xs x))
  | _ => raise (ValueError "zero-size array to reduction operation minimum which has no identity")
  end.

Definition np_max {S} (a : Array) : PyM S Scalar :=
  match a with
  | IntArray (x :: xs) => ret (SInt (fold_left Z.max xs x))
  | FloatArray (x :: xs) => ret (SFloat (fold_left float_max xs x))
  | _ => raise (ValueError "zero-size array to reduction operation maximum which has no identity")
  end.

(** Truncation towards zero. *)
Definition Qtrunc (q : Q) : Z :=
  if Qle_bool 0 q then Qfloor q else Qceiling q.

(** [int(x)] of a numpy scalar *)
Definition to_int (x : Scalar) : Exn + Z :=
  match x with
  | SInt z => inr z
  | SFloat (Finite q) => inr (Qtrunc q)
  | SFloat NaN => inl (ValueError "cannot convert float NaN to integer")
  | SFloat _ => inl (OverflowError "cannot convert float infinity to integer")
  end.

Definition py_int {S} (x : Scalar) : PyM S Z := lift (to_int x).

(** One field of a compound dataset, as [events_data[name][:]] gives it:
    an array of integers, an array of floats, or an exception. *)
Inductive Column : Type :=
| ColValues (vals : list Z)
| ColFloats (vals : list Float)
| ColFails (e : Exn).

(** What [f["events"]] can be: a group (no [dtype] attribute), a dataset
    of a plain dtype ([dtype.names] is [None]), or a dataset of a compound
    dtype with named fields. *)
Inductive H5Object : Type :=
| H5Group
| H5Plain
| H5Table (fields : gmap string Column).

(** Root attributes are kept as their [str(...)] image. *)
Record H5File : Type := {
  h5_attrs : gmap string string;
  h5_members : gmap string H5Object;
}.

(** ** schema.py: the rows of [spine_files] *)

Module SpineFile.
(** A [SpineFile] object.  [id] and [created_at] are [None] until the
    row is flushed; [file_path] is [nullable=False, unique=True]. *)
Record t : Type := mk {
  id : option nat;
  file_path : option string;
  spine_version : option string;
  spine_prod_version : option string;
  model_name : option string;
  dataset_name : option string;
  run : option Z;
  subrun : option Z;
  event_min : option Z;
  event_max : option Z;
  num_events : option Z;
  created_at : option nat;
}.

Definition stored (i : nat) (now : nat) (o : t) : t :=
  mk (Some i) (file_path o) (spine_version o) (spine_prod_version o)
     (model_name o) (dataset_name o) (run o) (subrun o)
     (event_min o) (event_max o) (num_events o) (Some now).
End SpineFile.

(** ** The host: pathlib, glob, h5py and the database driver *)

Record Host : Type := {
  (** [str(Path(p).resolve())]: the resolved path, or the exception
      raised (a NUL character, a symlink loop) *)
  resolve : string -> Exn + string;
  (** [Path(p).exists()]: the answer, or the [OSError] raised *)
  path_exists : string -> Exn + bool;
  (** [Path(p).parts] *)
  path_parts : string -> list string;
  (** [Path(p).stem] *)
  path_stem : string -> string;
  (** [glob.glob(pattern)]: the matches, or the exception raised *)
  glob : string -> Exn + list string;
  (** [h5py.File(p, "r")]: the opened file, or the exception raised *)
  h5open : string -> Exn + H5File;
  (** [get_engine], [create_tables], [get_session] on a connection string:
      the exception raised, if any *)
  connect : string -> option Exn;
  (** the exception, if any, the store raises on the query by path of
      [index_file], given the rows of the table *)
  query_error : list SpineFile.t -> string -> option Exn;
  (** the exception, if any, the driver raises on the INSERT of a row for
      a reason other than the two constraints of [file_path] (a value the
      column cannot hold, a store failure), given the rows of the table *)
  insert_error : list SpineFile.t -> SpineFile.t -> option Exn;
  (** the texts of the driver's constraint violations *)
  unique_violation : SpineFile.t -> string;
  not_null_violation : SpineFile.t -> string;
}.

(** ** extractor.py *)

Module Metadata.
(** The dict built by [extract_metadata]: ten fixed keys. *)
Record t : Type := mk {
  file_path : option string;
  spine_version : option string;
  spine_prod_version : option string;
  model_name : option string;
  dataset_name : option string;
  run : option Z;
  subrun : option Z;
  event_min : option Z;
  event_max : option Z;
  num_events : option Z;
}.

Definition set_spine_version v m :=
  mk (file_path m) v (spine_prod_version m) (model_name m) (dataset_name m)
     (run m) (subrun m) (event_min m) (event_max m) (num_events m).
Definition set_spine_prod_version v m :=
  mk (file_path m) (spine_version m) v (model_name m) (dataset_name m)
     (run m) (subrun m) (event_min m) (event_max m) (num_events m).
Definition set_model_name v m :=
  mk (file_path m) (spine_version m) (spine_prod_version m) v (dataset_name m)
     (run m) (subrun m) (event_min m) (event_max m) (num_events m).
Definition set_dataset_name v m :=
  mk (file_path m) (spine_version m) (spine_prod_version m) (model_name m) v
     (run m) (subrun m) (event_min m) (event_max m) (num_events m).
Definition set_run v m :=
  mk (file_path m) (spine_version m) (spine_prod_version m) (model_name m)
     (dataset_name m) v (subrun m) (event_min m) (event_max m) (num_events m).
Definition set_subrun v m :=
  mk (file_path m) (spine_version m) (spine_prod_version m) (model_name m)
     (dataset_name m) (run m) v (event_min m) (event_max m) (num_events m).
Definition set_event_min v m :=
  mk (file_path m) (spine_version m) (spine_prod_version m) (model_name m)
     (dataset_name m) (run m) (subrun m) v (event_max m) (num_events m).
Definition set_event_max v m :=
  mk (file_path m) (spine_version m) (spine_prod_version m) (model_name m)
     (dataset_name m) (run m) (subrun m) (event_min m) v (num_events m).
Definition set_num_events v m :=
  mk (file_path m) (spine_version m) (spine_prod_version m) (model_name m)
     (dataset_name m) (run m) (subrun m) (event_min m) (event_max m) v.

(** The dict literal of lines 43-54. *)
Definition initial (p : string) : t :=
  mk (Some p) None None None None None None None None None.
End Metadata.

(** Python truth value of an optional string: [None] and [""] are false. *)
Definition truthy (v : option string) : bool :=
  match v with
  | None => false
  | Some s => negb (String.eqb s "")
  end.

(** [name in events_data.dtype.names] *)
Definition has_field {S} (o : H5Object) (name : string) : PyM S bool :=
  match o with
  | H5Group => raise (AttributeError "'Group' object has no attribute 'dtype'")
  | H5Plain => raise (TypeError "argument of type 'NoneType' is not iterable")
  | H5Table fields => ret (bool_decide (is_Some (fields !! name)))
  end.

(** [events_data[name][:]] *)
Definition read_field {S} (o : H5Object) (name : string) : PyM S Array :=
  match o with
  | H5Table fields =>
      match fields !! name with
      | Some (ColValues vals) => ret (IntArray vals)
      | Some (ColFloats vals) => ret (FloatArray vals)
      | Some (ColFails e) => raise e
      | None => raise (ValueError "Field does not appear in this type.")
      end
  | _ => raise (TypeError "Accessing a group is done with bytes or str")
  end.

(** Lines 92 and 96: [int(a[0]) if len(a) > 0 else None]. *)
Definition first_row {S} (a : Array) : PyM S (option Z) :=
  if (0 <? array_len a)%nat then
    match array_first a with
    | Some x =>
        do z <- py_int x;
        ret (Some z)
    | None => raise (ValueError "index 0 is out of bounds for axis 0 with size 0")
    end
  else ret None.

(** The list the model-name loop of line 115 walks through. *)
Definition known_sites : list string := ["icarus"; "sbnd"; "2x2"; "nd-lar"; "fsd"].

(** Lines 115-118: [for part in [...]: if part in path_parts: ...; break]. *)
Fixpoint scan_sites (parts : list string) (sites : list string) : PyM Metadata.t unit :=
  match sites with
  | [] => ret tt
  | part :: rest =>
      if bool_decide (part ∈ parts)
      then modify (Metadata.set_model_name (Some part))
      else scan_sites parts rest
  end.

Section Extractor.
Context (host : Host).

(** Lines 59-81: the root attributes. *)
Definition read_attrs (attrs : gmap string string) : PyM Metadata.t unit :=
  do_ (match attrs !! "spine_version" with
       | Some v => modify (Metadata.set_spine_version (Some v))
       | None =>
           match attrs !! "version" with
           | Some v => modify (Metadata.set_spine_version (Some v))
           | None => ret tt
           end
       end);
  do_ (match attrs !! "spine_prod_version" with
       | Some v => modify (Metadata.set_spine_prod_version (Some v))
       | None => ret tt
       end);
  do_ (match attrs !! "model_name" with
       | Some v => modify (Metadata.set_model_name (Some v))
       | None =>
           match attrs !! "config_name" with
           | Some v => modify (Metadata.set_model_name (Some v))
           | None => ret tt
           end
       end);
  match attrs !! "dataset_name" with
  | Some v => modify (Metadata.set_dataset_name (Some v))
  | None =>
      match attrs !! "dataset" with
      | Some v => modify (Metadata.set_dataset_name (Some v))
      | None => ret tt
      end
  end.

(** Lines 98-110: the event identifier column.  The three assignments
    are three statements: a conversion that raises leaves the earlier
    ones done. *)
Definition read_event_ids (events_data : H5Object) : PyM Metadata.t unit :=
  do has_event <- has_field events_data "event";
  do has_any <- (if has_event then ret true else has_field events_data "event_id");
  if has_any then
    do has_event' <- has_field events_data "event";
    let event_col := if has_event' then "event" else "event_id" in
    do event_ids <- read_field events_data event_col;
    if (0 <? array_len event_ids)%nat then
      do lo <- np_min event_ids;
      do lo <- py_int lo;
      do_ modify (Metadata.set_event_min (Some lo));
      do hi <- np_max event_ids;
      do hi <- py_int hi;
      do_ modify (Metadata.set_event_max (Some hi));
      modify (Metadata.set_num_events (Some (Z.of_nat (array_len event_ids))))
    else ret tt
  else ret tt.

(** Lines 85-110: run, subrun and the event range from [f["events"]]. *)
Definition read_events (f : H5File) : PyM Metadata.t unit :=
  match h5_members f !! "events" with
  | None => ret tt
  | Some events_data =>
      do has_run <- has_field events_data "run";
      do_ (if has_run then
             do runs <- read_field events_data "run";
             do run <- first_row runs;
             modify (Metadata.set_run run)
           else ret tt);
      do has_subrun <- has_field events_data "subrun";
      do_ (if has_subrun then
             do subruns <- read_field events_data "subrun";
             do subrun <- first_row subruns;
             modify (Metadata.set_subrun subrun)
           else ret tt);
      read_event_ids events_data
  end.

(** Lines 113-123: what the path gives when the attributes gave nothing. *)
Definition infer_from_path (file_path : string) : PyM Metadata.t unit :=
  do model <- gets Metadata.model_name;
  do_ (if negb (truthy model)
       then scan_sites (path_parts host file_path) known_sites
       else ret tt);
  do dataset <- gets Metadata.dataset_name;
  if negb (truthy dataset)
  then modify (Metadata.set_dataset_name (Some (path_stem host file_path)))
  else ret tt.

(** Lines 57-123: the body of the [try], on the dict it mutates. *)
Definition read_container (file_path : string) : PyM Metadata.t unit :=
  do f <- lift (h5open host file_path);
  do_ read_attrs (h5_attrs f);
  do_ read_events f;
  infer_from_path file_path.
End Extractor.

(** ** schema.py: the session *)

(** The session with the table behind it: the committed rows, the objects
    added and not yet flushed, and a logical clock for [created_at]. *)
Record Session : Type := {
  table : list SpineFile.t;
  pending : list SpineFile.t;
  clock : nat;
}.

(** The autoincremented primary key: one more than the largest in use. *)
Definition next_id (rows : list SpineFile.t) : nat :=
  S (foldr (fun r acc => Nat.max (default 0%nat (SpineFile.id r)) acc) 0%nat rows).

Definition has_path (rows : list SpineFile.t) (p : string) : bool :=
  bool_decide (Some p ∈ map SpineFile.file_path rows).

(** The INSERTs of a flush, one per pending object: what the driver
    refuses on its own account, then the NOT NULL and UNIQUE constraints
    of [file_path]. *)
Fixpoint flush (host : Host) (rows : list SpineFile.t) (now : nat)
    (objs : list SpineFile.t) : Exn + (list SpineFile.t * nat) :=
  match objs with
  | [] => inr (rows, now)
  | o :: rest =>
      match insert_error host rows o with
      | Some e => inl e
      | None =>
          match SpineFile.file_path o with
          | None => inl (IntegrityError (not_null_violation host o))
          | Some p =>
              if has_path rows p
              then inl (IntegrityError (unique_violation host o))
              else flush host (rows ++ [SpineFile.stored (next_id rows) now o]) (S now) rest
          end
      end
  end.

(** ** The output stream *)

(** The lines the pipeline prints, by kind; [render] gives their text. *)
Inductive Msg : Type :=
| ReadWarning (file_path : string) (e : Exn)
| Skip (file_path : string)
| InvalidMetadata (file_path : string)
| Indexed (file_path : string) (run subrun num_events : option Z) (version : option string)
| IndexFailed (file_path : string) (e : Exn)
| Found (n : nat)
| NotFound (file_path : string)
| Complete (success_count error_count : nat).

Definition str_opt_Z (v : option Z) : string :=
  match v with Some z => pretty z | None => "None" end.

Definition str_opt (v : option string) : string :=
  match v with Some s => s | None => "None" end.

Definition render (m : Msg) : string :=
  match m with
  | ReadWarning p e => "WARNING: Could not read metadata from " +:+ p +:+ ": " +:+ exn_str e
  | Skip p => "SKIP: " +:+ p +:+ " (already in database)"
  | InvalidMetadata p => "ERROR: Invalid metadata for " +:+ p
  | Indexed p run subrun num_events version =>
      let run_info :=
        match run with
        | Some r => "run=" +:+ pretty r +:+ ", subrun=" +:+ str_opt_Z subrun
        | None => "run=N/A"
        end in
      let event_info :=
        match num_events with
        | Some n => "events=" +:+ pretty n
        | None => "events=N/A"
        end in
      "INDEXED: " +:+ p +:+ " (" +:+ run_info +:+ ", " +:+ event_info +:+ ", version="
        +:+ str_opt version +:+ ")"
  | IndexFailed p e => "ERROR: Failed to index " +:+ p +:+ ": " +:+ exn_str e
  | Found n => "Found " +:+ pretty n +:+ " file(s) to index"
  | NotFound p => "WARNING: File not found: " +:+ p
  | Complete s e =>
      String "010" ("Indexing complete: " +:+ pretty s +:+ " success, " +:+ pretty e +:+ " errors")
  end.

(** ** The world the indexer runs in *)

Record World : Type := {
  session : Session;
  stdout : list Msg;
}.

Definition print (m : Msg) : PyM World unit :=
  modify (fun w => {| session := session w; stdout := stdout w ++ [m] |}).

Definition with_session (f : Session -> Session) : PyM World unit :=
  modify (fun w => {| session := f (session w); stdout := stdout w |}).

(** [session.query(SpineFile).filter_by(file_path=p).first()] *)
Definition session_query_first (host : Host) (p : string) : PyM World (option SpineFile.t) :=
  do rows <- gets (fun w => table (session w));
  match query_error host rows p with
  | Some e => raise e
  | None => ret (find (fun r => bool_decide (SpineFile.file_path r = Some p)) rows)
  end.

(** [session.add(obj)] *)
Definition session_add (obj : SpineFile.t) : PyM World unit :=
  with_session (fun s => {| table := table s; pending := pending s ++ [obj]; clock := clock s |}).

(** [session.commit()]: flush, then make the rows durable; a failed
    INSERT raises and leaves the pending objects to the rollback. *)
Definition session_commit (host : Host) : PyM World unit :=
  fun w =>
    let s := session w in
    match flush host (table s) (clock s) (pending s) with
    | inl e => (w, inl e)
    | inr (rows, now) =>
        ({| session := {| table := rows; pending := []; clock := now |};
            stdout := stdout w |}, inr tt)
    end.

(** [session.rollback()] and [session.close()]: the pending objects go. *)
Definition session_rollback : PyM World unit :=
  with_session (fun s => {| table := table s; pending := []; clock := clock s |}).

(** [sessionmaker(bind=engine)()]: a session with nothing pending. *)
Definition get_session : PyM World unit := session_rollback.

Definition session_close : PyM World unit := session_rollback.

(** ** extractor.py, the entry points *)

(** [c in pattern] for a one-character [c]. *)
Fixpoint contains_char (c : ascii) (pattern : string) : bool :=
  match pattern with
  | EmptyString => false
  | String d rest => Ascii.eqb c d || contains_char c rest
  end.

Section Pipeline.
Context (host : Host).

(** Lines 41-128.  The path is resolved before the [try]; the [try]
    body then runs on the fresh dict, whatever it raises is caught and
    reported on the output stream, and the dict is returned as the body
    left it. *)
Definition extract_metadata (file_path : string) : PyM World Metadata.t :=
  do file_path <- lift (resolve host file_path);
  let metadata := Metadata.initial file_path in
  match read_container host file_path metadata with
  | (metadata, inr _) => ret metadata
  | (metadata, inl e) =>
      do_ print (ReadWarning file_path e);
      ret metadata
  end.

(** Line 144: [metadata.get("file_path") is not None]. *)
Definition validate_metadata (metadata : Metadata.t) : bool :=
  match Metadata.file_path metadata with
  | Some _ => true
  | None => false
  end.

(** ** indexer.py *)

(** Lines 44-55: the [SpineFile(...)] built from the dict. *)
Definition make_row (metadata : Metadata.t) : SpineFile.t :=
  SpineFile.mk None
    (Metadata.file_path metadata)
    (Metadata.spine_version metadata)
    (Metadata.spine_prod_version metadata)
    (Metadata.model_name metadata)
    (Metadata.dataset_name metadata)
    (Metadata.run metadata)
    (Metadata.subrun metadata)
    (Metadata.event_min metadata)
    (Metadata.event_max metadata)
    (Metadata.num_events metadata)
    None.

(** Lines 37-80: the [try] of [index_file] with its handler;
    [file_path] is already resolved. *)
Definition index_new (file_path : string) : PyM World bool :=
  try_except
    (do metadata <- extract_metadata file_path;
     if negb (validate_metadata metadata) then
       do_ print (InvalidMetadata file_path);
       ret false
     else
       let run := make_row metadata in
       do_ session_add run;
       do_ session_commit host;
       do_ print (Indexed file_path (Metadata.run metadata) (Metadata.subrun metadata)
                    (Metadata.num_events metadata) (Metadata.spine_version metadata));
       ret true)
    (fun e =>
       do_ print (IndexFailed file_path e);
       do_ session_rollback;
       ret false).

(** Lines 27-80.  The resolution of line 27 and the query of line 31
    come before the [try]: what they raise leaves the function. *)
Definition index_file (file_path : string) (skip_existing : bool) : PyM World bool :=
  do file_path <- lift (resolve host file_path);
  if skip_existing then
    do existing <- session_query_first host file_path;
    match existing with
    | Some _ =>
        do_ print (Skip file_path);
        ret true
    | None => index_new file_path
    end
  else index_new file_path.

(** Line 103: ["*" in pattern or "?" in pattern]. *)
Definition has_wildcard (pattern : string) : bool :=
  contains_char "*" pattern || contains_char "?" pattern.

(** Lines 101-106: the loop that grows [file_list]. *)
Fixpoint expand_files {S} (files : list string) (file_list : list string)
  : PyM S (list string) :=
  match files with
  | [] => ret file_list
  | pattern :: rest =>
      if has_wildcard pattern
      then do matches <- lift (glob host pattern);
           expand_files rest (file_list ++ matches)
      else expand_files rest (file_list ++ [pattern])
  end.

(** Lines 114-122: the loop over the candidates with its two counters.
    The existence test of line 115 is under no [try]. *)
Fixpoint index_loop (file_list : list string) (skip_existing : bool)
    (success_count error_count : nat) : PyM World (nat * nat) :=
  match file_list with
  | [] => ret (success_count, error_count)
  | file_path :: rest =>
      do there <- lift (path_exists host file_path);
      if there then
        do ok <- index_file file_path skip_existing;
        if ok
        then index_loop rest skip_existing (S success_count) error_count
        else index_loop rest skip_existing success_count (S error_count)
      else
        do_ print (NotFound file_path);
        index_loop rest skip_existing success_count (S error_count)
  end.
End Pipeline.

(** The report of the specification (section 4.4, step 3): total
    candidates, success count, error count and the per-file outcome log. *)
Record IndexReport : Type := {
  total : nat;
  successes : nat;
  errors : nat;
  outcomes : list Msg;
}.

(** Lines 83-127.  The function has no [return]: the call evaluates to
    Python's [None], written [None] here; the result type leaves room for
    the report of the specification so that the two can be compared. *)
Definition index_files (host : Host) (db_url : string) (files : list string)
    (skip_existing : bool) : PyM World (option IndexReport) :=
  match connect host db_url with
  | Some e => raise e
  | None =>
      do_ get_session;
      do file_list <- expand_files host files [];
      do_ print (Found (length file_list));
      do counts <- index_loop host file_list skip_existing 0 0;
      do_ print (Complete (fst counts) (snd counts));
      do_ session_close;
      ret None
  end.

(** ** A POSIX host for running the pipeline on concrete inputs *)

Module Posix.
(** The pieces between slashes, [cur] being the piece under way. *)
Fixpoint split_slash (s : string) (cur : string) : list string :=
  match s with
  | EmptyString => [cur]
  | String c rest =>
      if Ascii.eqb c "/"
      then cur :: split_slash rest ""
      else split_slash rest (cur +:+ String c "")
  end.

Definition components (s : string) : list string :=
  filter (fun c => c ≠ "" ∧ c ≠ ".") (split_slash s "").

(** The root of a POSIX path: ["/"], or ["//"] for exactly two leading
    slashes. *)
Definition root (s : string) : string :=
  match s with
  | String "/" (String "/" (String "/" _)) => "/"
  | String "/" (String "/" _) => "//"
  | String "/" _ => "/"
  | _ => ""
  end.

(** [PurePosixPath(s).parts] *)
Definition parts (s : string) : list string :=
  if String.eqb (root s) "" then components s else root s :: components s.

(** [name.rfind(".")], counting from [i]. *)
Fixpoint rfind_dot (name : string) (i : nat) (found : option nat) : option nat :=
  match name with
  | EmptyString => found
  | String c rest => rfind_dot rest (S i) (if Ascii.eqb c "." then Some i else found)
  end.

(** [PurePosixPath(s).stem]: the last component up to its last dot,
    when that dot is neither first nor last. *)
Definition stem (s : string) : string :=
  let name := List.last (components s) "" in
  match rfind_dot name 0 None with
  | Some i =>
      if (0 <? i)%nat && (i <? String.length name - 1)%nat
      then String.substring 0 i name
      else name
  | None => name
  end.

(** Resolution on a machine without symlinks whose working directory is
    [/work], for paths without dot segments. *)
Definition realpath (s : string) : string :=
  match s with
  | String "/" _ => s
  | _ => "/work/" +:+ s
  end.

(** A path with a NUL character: the system calls refuse it. *)
Definition has_nul (s : string) : bool := contains_char "000" s.

(** A path with a component longer than [NAME_MAX]: [stat] fails with
    [ENAMETOOLONG]. *)
Definition name_too_long (s : string) : bool :=
  existsb (fun c => (255 <? String.length c)%nat) (components s).

(** The range of a 64-bit signed integer, all an INTEGER column holds. *)
Definition fits_int64 (v : option Z) : bool :=
  match v with
  | Some z => (- 2 ^ 63 <=? z) && (z <? 2 ^ 63)
  | None => true
  end.

Definition row_fits (o : SpineFile.t) : bool :=
  fits_int64 (SpineFile.run o) && fits_int64 (SpineFile.subrun o)
  && fits_int64 (SpineFile.event_min o) && fits_int64 (SpineFile.event_max o)
  && fits_int64 (SpineFile.num_events o).

(** The host made of a disk (resolved path to what opening it gives), a
    table of glob results and the exception, if any, the store raises
    on connection.  [Path.resolve] raises on a NUL character;
    [Path.exists] answers [False] to it and lets [ENAMETOOLONG] through;
    the driver refuses an integer beyond 64 bits.  The two violation
    texts are the first line of the message the ORM builds; the statement
    and its parameters, which follow there, are left out. *)
Definition host (disk : gmap string (Exn + H5File))
    (globs : gmap string (list string)) (store_down : option Exn) : Host :=
  {| resolve := fun p =>
       if has_nul p then inl (ValueError "embedded null byte") else inr (realpath p);
     path_exists := fun p =>
       if has_nul p then inr false
       else if name_too_long p
       then inl (OSError ("[Errno 36] File name too long: '" +:+ p +:+ "'"))
       else inr (bool_decide (is_Some (disk !! realpath p)));
     path_parts := parts;
     path_stem := stem;
     glob := fun pattern => inr (default [] (globs !! pattern));
     h5open := fun p =>
       default (inl (OSError "Unable to synchronously open file")) (disk !! p);
     connect := fun _ => store_down;
     query_error := fun _ _ => None;
     insert_error := fun _ o =>
       if row_fits o then None
       else Some (OverflowError "Python int too large to convert to SQLite INTEGER");
     unique_violation := fun _ =>
       "(sqlite3.IntegrityError) UNIQUE constraint failed: spine_files.file_path";
     not_null_violation := fun _ =>
       "(sqlite3.IntegrityError) NOT NULL constraint failed: spine_files.file_path" |}.
End Posix.

(** An empty database and an empty output stream. *)
Definition empty_world : World :=
  {| session := {| table := []; pending := []; clock := 0 |}; stdout := [] |}.

(** A container with the given root attributes and [events] fields. *)
Definition container (attrs : list (string * string))
    (fields : list (string * Column)) : Exn + H5File :=
  inr {| h5_attrs := list_to_map attrs;
         h5_members := {[ "events" := H5Table (list_to_map fields) ]} |}.

Definition demo_disk : gmap string (Exn + H5File) :=
  list_to_map
    [ ("/data/icarus/run12.h5",
        container [("spine_version", "0.7.0")]
                  [("run", ColValues [12; 12; 12; 12]); ("subrun", ColValues [1; 1; 1; 1]);
                   ("event", ColValues [5; 3; 9; 7])]);
      ("/data/sbnd/icarus/mixed.h5", container [] []);
      ("/data/corrupt.h5", inl (OSError "file signature not found"));
      ("/data/plain.h5",
        inr {| h5_attrs := {[ "spine_version" := "0.7.0" ]};
               h5_members := {[ "events" := H5Plain ]} |});
      ("/data/floats.h5",
        container [] [("event", ColFloats [Finite 1.5; PosInf])]);
      ("/data/nan.h5",
        container [] [("event", ColFloats [Finite 1.5; NaN])]);
      ("/data/floatrun.h5",
        container [] [("run", ColFloats [Finite (-1.5)]); ("subrun", ColFloats [Finite 2.5])]);
      ("/work/local.h5", container [] []) ].

Definition demo_host : Host :=
  Posix.host demo_disk
    (list_to_map [("/data/icarus/*.h5", ["/data/icarus/run12.h5"]);
                  ("/data/*/run12.h5", ["/data/icarus/run12.h5"]);
                  ("/data/icarus/run1[2].h5", ["/data/icarus/run12.h5"])])
    None.

(** A container that names its configuration, under a path that names
    another site. *)
Definition named_file : H5File :=
  {| h5_attrs := list_to_map [("config_name", "icarus_full_chain")];
     h5_members := {[ "events" := H5Table (list_to_map []) ]} |}.

Definition named_host : Host :=
  Posix.host (list_to_map [("/data/sbnd/x.h5", inr named_file)]) ∅ None.

(** ** cli.py: the [inject] command *)

(** What the command line layer asks of the machine: [str.strip] and the
    lines a text file yields when iterated, or the exception [open] or
    the decoding raises. *)
Record Shell : Type := {
  strip : string -> string;
  read_lines : string -> Exn + list string;
}.

(** Lines 15-16: [[line.strip() for line in handle if line.strip()]]. *)
Fixpoint stripped_lines (sh : Shell) (handle : list string) : list string :=
  match handle with
  | [] => []
  | line :: rest =>
      if truthy (Some (strip sh line))
      then strip sh line :: stripped_lines sh rest
      else stripped_lines sh rest
  end.

(** Lines 13-16. *)
Definition _load_files_list {S} (sh : Shell) (path : string) : PyM S (list string) :=
  match read_lines sh path with
  | inl e => raise e
  | inr handle => ret (stripped_lines sh handle)
  end.

(** Python truth value of an optional list: [None] and [[]] are false. *)
Definition truthy_list {A} (v : option (list A)) : bool :=
  match v with
  | None | Some [] => false
  | Some (_ :: _) => true
  end.

(** Lines 100-111. *)
Definition _run_inject (host : Host) (sh : Shell) (db_url : string)
    (sources : option (list string)) (source_list : option string)
    (skip_existing : bool) : PyM World Z :=
  do sources <- (if truthy source_list
                 then do files <- _load_files_list sh (default "" source_list);
                      ret (Some files)
                 else ret sources);
  if negb (truthy_list sources)
  then raise (ValueError "No files provided for indexing.")
  else
    do_ index_files host db_url (default [] sources) skip_existing;
    ret 0.

(** ** app.py: the browse callbacks *)

(** What the callbacks ask of the machine and of the database:
    [Path(p).name], [strftime("%Y-%m-%d %H:%M:%S")] on a [created_at],
    the row order [ORDER BY created_at DESC] gives, and the values
    [SELECT DISTINCT] keeps. *)
Record Browser : Type := {
  path_name : string -> string;
  strftime : nat -> string;
  order_by_created_desc : list SpineFile.t -> list SpineFile.t;
  distinct : list string -> list string;
}.

(** A table cell that holds a number or a text. *)
Inductive Cell : Type :=
| CellInt (z : Z)
| CellStr (s : string).

Module DataRow.
(** One dict of the [data] list of [update_table]. *)
Record t : Type := mk {
  id : option nat;
  run : Cell;
  subrun : Cell;
  num_events : Cell;
  event_range : string;
  file_name : string;
  spine_version : string;
  model_name : string;
  created_at : string;
}.
End DataRow.






(** Lines 259-264: one [if value: query = query.filter(column == value)]. *)
Definition apply_filter (column : SpineFile.t -> option string) (value : option string)
    (query : list SpineFile.t) : list SpineFile.t :=
  if truthy value then filter (fun r => column r = value) query else query.

(** Lines 256-264: the filtered query. *)
Definition filtered_query (version model dataset : option string)
    (rows : list SpineFile.t) : list SpineFile.t :=
  apply_filter SpineFile.dataset_name dataset
    (apply_filter SpineFile.model_name model
       (apply_filter SpineFile.spine_version version rows)).

(** Line 271: [query.order_by(SpineFile.created_at.desc()).limit(limit).all()]. *)
Definition query_runs (br : Browser) (version model dataset : option string)
    (limit : nat) (rows : list SpineFile.t) : list SpineFile.t :=
  take limit (order_by_created_desc br (filtered_query version model dataset rows)).


(** Lines 214-235, for one column: the distinct non-null values, the
    empty ones dropped, each as a label and a value. *)
Definition column_options (br : Browser) (column : SpineFile.t -> option string)
    (rows : list SpineFile.t) : list (string * string) :=
  map (fun v => (v, v))
      (filter (fun v => truthy (Some v) = true) (distinct br (omap column rows))).

(** Lines 212-237. *)
Definition update_filter_options (br : Browser)
  : PyM World (list (string * string) * list (string * string) * list (string * string)) :=
  do rows <- gets (fun w => table (session w));
  ret (column_options br SpineFile.spine_version rows,
       column_options br SpineFile.model_name rows,
       column_options br SpineFile.dataset_name rows).
(** A shell with ASCII whitespace stripping and a browser with a merge
    sort, to run the command and the callbacks on concrete inputs. *)
Module Demo.
Definition is_space (c : ascii) : bool :=
  let n := nat_of_ascii c in
  ((9 <=? n) && (n <=? 13) || (28 <=? n) && (n <=? 32))%nat.

Fixpoint lstrip (s : string) : string :=
  match s with
  | String c rest => if is_space c then lstrip rest else s
  | EmptyString => EmptyString
  end.

Fixpoint rstrip (s : string) : string :=
  match s with
  | EmptyString => EmptyString
  | String c rest =>
      match rstrip rest with
      | EmptyString => if is_space c then EmptyString else String c EmptyString
      | rest' => String c rest'
      end
  end.

Definition shell (files : gmap string (list string)) : Shell :=
  {| strip := fun s => rstrip (lstrip s);
     read_lines := fun p =>
       match files !! p with
       | Some l => inr l
       | None => inl (OSError "No such file or directory")
       end |}.

Definition newer (a b : SpineFile.t) : Prop :=
  (default 0 (SpineFile.created_at b) <= default 0 (SpineFile.created_at a))%nat.

#[global] Instance newer_dec (a b : SpineFile.t) : Decision (newer a b).
Proof. unfold newer. apply _. Defined.

Definition browser : Browser :=
  {| path_name := fun p => List.last (Posix.components p) "";
     strftime := fun t => "t" +:+ pretty t;
     order_by_created_desc := merge_sort newer;
     distinct := remove_dups |}.
End Demo.

(** * Summaries of the pipeline and formal readings of the claims *)

(** The state a computation ends in, raised or not. *)
Definition final {S A} (m : PyM S A) (s : S) : S := fst (m s).

(** [m] keeps the projection [g] of the state, whether it returns or
    raises. *)
Definition keeps {S A B} (g : S -> B) (m : PyM S A) : Prop :=
  forall s, g (final m s) = g s.

(** The dict the [try] of [extract_metadata] leaves and the lines it
    prints, as functions of the resolved path. *)
Definition extracted (host : Host) (p : string) : Metadata.t :=
  final (read_container host p) (Metadata.initial p).

Definition read_warnings (host : Host) (p : string) : list Msg :=
  match snd (read_container host p (Metadata.initial p)) with
  | inl e => [ReadWarning p e]
  | inr _ => []
  end.

Definition printed (w : World) (msgs : list Msg) : World :=
  {| session := session w; stdout := stdout w ++ msgs |}.




(** A float [int] converts. *)
Definition converts (x : Float) : bool :=
  match x with
  | Finite _ => true
  | _ => false
  end.

(** A column that is absent, or can be read and has a first row, if any,
    that [int] converts. *)
Definition column_ok (c : option Column) : bool :=
  match c with
  | Some (ColFails _) => false
  | Some (ColFloats (x :: _)) => converts x
  | _ => true
  end.

(** A column that is absent, or can be read and has a minimum and a
    maximum, if any, that [int] converts. *)
Definition range_column_ok (c : option Column) : bool :=
  match c with
  | Some (ColFails _) => false
  | Some (ColFloats (x :: xs)) =>
      converts (fold_left float_min xs x) && converts (fold_left float_max xs x)
  | _ => true
  end.

(** The event identifier column: [event], or else [event_id]. *)
Definition event_column (fields : gmap string Column) : option Column :=
  match fields !! "event" with
  | Some c => Some c
  | None => fields !! "event_id"
  end.

(** A container whose [events] member, if there is one, is a table whose
    [run], [subrun] and event identifier columns can be read and
    converted. *)
Definition readable (f : H5File) : bool :=
  match h5_members f !! "events" with
  | None => true
  | Some (H5Table fields) =>
      column_ok (fields !! "run") && column_ok (fields !! "subrun")
      && range_column_ok (event_column fields)
  | Some _ => false
  end.

(** The first row of a column as [int] gives it. *)
Definition first_value (c : option Column) : option Z :=
  match c with
  | Some (ColValues vals) => head vals
  | Some (ColFloats (Finite q :: _)) => Some (Qtrunc q)
  | _ => None
  end.

(** Section 4.1, step 5 of the specification in its own words: scan the
    path segments for membership in the known-site set; the first match
    wins. *)
Definition first_site_segment (parts : list string) : option string :=
  find (fun segment => bool_decide (segment ∈ known_sites)) parts.

(** The formal reading of claim C8 at one host and path. *)
Definition model_from_first_segment (host : Host) (path : string) : Prop :=
  forall p f,
    resolve host path = inr p ->
    h5open host p = inr f ->
    readable f = true ->
    h5_attrs f !! "model_name" = None ->
    h5_attrs f !! "config_name" = None ->
    forall w, exists md w',
      extract_metadata host path w = (w', inr md) /\
      Metadata.model_name md = first_site_segment (path_parts host p).

(** What the [try] of [index_file] does to the session, what it prints
    and what it returns, as a function of the session alone;
    [file_path] is the path [index_file] resolved, which
    [extract_metadata] resolves again. *)
Definition new_outcome (host : Host) (file_path : string) (s : Session)
  : Session * list Msg * bool :=
  let rolled_back := {| table := table s; pending := []; clock := clock s |} in
  match resolve host file_path with
  | inl e => (rolled_back, [IndexFailed file_path e], false)
  | inr p =>
      let md := extracted host p in
      match flush host (table s) (clock s) (pending s ++ [make_row md]) with
      | inr (rows, now) =>
          ({| table := rows; pending := []; clock := now |},
           read_warnings host p
             ++ [Indexed file_path (Metadata.run md) (Metadata.subrun md)
                   (Metadata.num_events md) (Metadata.spine_version md)],
           true)
      | inl e => (rolled_back, read_warnings host p ++ [IndexFailed file_path e], false)
      end
  end.

(** The same for [index_file] as a whole, which can raise. *)
Definition file_outcome (host : Host) (path : string) (skip_existing : bool) (s : Session)
  : Session * list Msg * (Exn + bool) :=
  match resolve host path with
  | inl e => (s, [], inl e)
  | inr file_path =>
      let fresh :=
        let o := new_outcome host file_path s in (fst (fst o), snd (fst o), inr (snd o)) in
      if skip_existing then
        match query_error host (table s) file_path with
        | Some e => (s, [], inl e)
        | None =>
            match find (fun r => bool_decide (SpineFile.file_path r = Some file_path))
                       (table s) with
            | Some _ => (s, [Skip file_path], inr true)
            | None => fresh
            end
        end
      else fresh
  end.

(** The world after an outcome: the new session, the lines appended. *)
Definition after (w : World) (o : Session * list Msg) : World :=
  {| session := fst o; stdout := stdout w ++ snd o |}.

(** One candidate of the loop: an existing path goes to [index_file], a
    missing one is reported and counts as an error. *)
Definition candidate_outcome (host : Host) (path : string) (skip_existing : bool)
    (s : Session) : Session * list Msg * (Exn + bool) :=
  match path_exists host path with
  | inl e => (s, [], inl e)
  | inr true => file_outcome host path skip_existing s
  | inr false => (s, [NotFound path], inr false)
  end.

(** The counters after one more candidate. *)
Definition count (ok : bool) (counts : nat * nat) : nat * nat :=
  if ok then (S (fst counts), snd counts) else (fst counts, S (snd counts)).

(** The session after the loop, the lines printed, and how many
    candidates succeeded and failed, or the exception that ended it. *)
Fixpoint loop_outcome (host : Host) (file_list : list string) (skip_existing : bool)
    (s : Session) : Session * list Msg * (Exn + nat * nat) :=
  match file_list with
  | [] => (s, [], inr (0, 0)%nat)
  | path :: rest =>
      let o := candidate_outcome host path skip_existing s in
      match snd o with
      | inl e => (fst (fst o), snd (fst o), inl e)
      | inr ok =>
          let r := loop_outcome host rest skip_existing (fst (fst o)) in
          (fst (fst r), snd (fst o) ++ snd (fst r),
           match snd r with
           | inl e => inl e
           | inr counts => inr (count ok counts)
           end)
      end
  end.

(** The candidate list, or the exception of the first glob that
    raises. *)
Fixpoint expansion (host : Host) (files : list string) : Exn + list string :=
  match files with
  | [] => inr []
  | pattern :: rest =>
      if has_wildcard pattern then
        match glob host pattern with
        | inl e => inl e
        | inr matches =>
            match expansion host rest with
            | inl e => inl e
            | inr l => inr (matches ++ l)
            end
        end
      else
        match expansion host rest with
        | inl e => inl e
        | inr l => inr (pattern :: l)
        end
  end.











(** The characters of a string. *)
Fixpoint chars (s : string) : list ascii :=
  match s with
  | EmptyString => []
  | String c rest => c :: chars rest
  end.

(** A pattern with a star or a question mark in it. *)
Definition star_or_question (pattern : string) : bool :=
  bool_decide ("*"%char ∈ chars pattern \/ "?"%char ∈ chars pattern).

(** The wildcard characters of a filesystem glob, as [glob.has_magic]
    knows them: star, question mark and opening bracket. *)
Definition glob_magic (pattern : string) : bool :=
  bool_decide ("*"%char ∈ chars pattern \/ "?"%char ∈ chars pattern
               \/ "["%char ∈ chars pattern).

(** The candidate list as claim C9 describes it, in its own words: an
    entry with wildcard characters is expanded by the glob, any other is
    taken literally, and the pieces are concatenated in order. *)
Fixpoint candidates_by_magic (host : Host) (files : list string) : Exn + list string :=
  match files with
  | [] => inr []
  | pattern :: rest =>
      match (if glob_magic pattern then glob host pattern else inr [pattern]) with
      | inl e => inl e
      | inr piece =>
          match candidates_by_magic host rest with
          | inl e => inl e
          | inr l => inr (piece ++ l)
          end
      end
  end.

(** The formal reading of claim C9 at one host and list of patterns. *)
Definition expands_glob_patterns (host : Host) (files : list string) : Prop :=
  forall w : World, expand_files host files [] w = (w, candidates_by_magic host files).

(** The glob results of a pattern, none when the glob raises. *)
Definition matches_of (host : Host) (pattern : string) : list string :=
  match glob host pattern with
  | inr matches => matches
  | inl _ => []
  end.

(** [m] maintains the property [P] of the state, whether it returns or
    raises. *)
Definition preserves {S A} (P : S -> Prop) (m : PyM S A) : Prop :=
  forall s, P s -> P (final m s).





(** The value the attribute step finds under [key], or else under
    [fallback]. *)
Definition attr_or (attrs : gmap string string) (key fallback : string) : option string :=
  match attrs !! key with
  | Some v => Some v
  | None => attrs !! fallback
  end.

(** A row as the database hands it back: key, path and creation time are
    there. *)
Definition stored_row (r : SpineFile.t) : Prop :=
  is_Some (SpineFile.id r) /\ is_Some (SpineFile.file_path r)
  /\ is_Some (SpineFile.created_at r).

(** A table that honours its constraints: stored rows, no path twice, no
    key twice. *)
Definition table_ok (rows : list SpineFile.t) : Prop :=
  Forall stored_row rows
  /\ NoDup (map SpineFile.file_path rows)
  /\ NoDup (map SpineFile.id rows).

Definition is_indexed (m : Msg) : bool :=
  match m with
  | Indexed _ _ _ _ _ => true
  | _ => false
  end.



(** [a] is listed before [b] by a descending order on [created_at]. *)
Definition newer_first (a b : SpineFile.t) : Prop :=
  match SpineFile.created_at a, SpineFile.created_at b with
  | Some x, Some y => (y <= x)%nat
  | _, _ => True
  end.

(** What SQL promises of [ORDER BY ... DESC] and [SELECT DISTINCT]. *)
Record browser_ok (br : Browser) : Prop := {
  order_permutation : forall l, order_by_created_desc br l ≡ₚ l;
  order_sorted : forall l, StronglySorted newer_first (order_by_created_desc br l);
  distinct_NoDup : forall l, NoDup (distinct br l);
  distinct_elem_of : forall l x, x ∈ distinct br l <-> x ∈ l;
}.

(** A row passes a filter that is set. *)
Definition passes (column : SpineFile.t -> option string) (value : option string)
    (r : SpineFile.t) : Prop :=
  truthy value = true -> column r = value.


(** What a dropdown may offer for a column of the table: each non-empty
    value that occurs, once, as its own label, and nothing else. *)
Definition offers (column : SpineFile.t -> option string) (rows : list SpineFile.t)
    (options : list (string * string)) : Prop :=
  NoDup options /\
  forall label value,
    (label, value) ∈ options <->
    label = value /\ value <> "" /\ exists r, r ∈ rows /\ column r = Some value.

(** The world after indexing a good and a corrupt file into an empty
    database. *)
Definition indexed_world : World :=
  fst (index_files demo_host "sqlite:///spine_files.db"
         ["/data/icarus/run12.h5"; "/data/corrupt.h5"] true empty_world).

(** * Properties *)

(** ** The extractor *)

Section Keeps.
Context {S B : Type} (g : S -> B).

Lemma keeps_ret {A} (a : A) : keeps g (ret a).
Proof. intros s; reflexivity. Qed.

Lemma keeps_raise {A} (e : Exn) : keeps g (@raise S A e).
Proof. intros s; reflexivity. Qed.

Lemma keeps_lift {A} (r : Exn + A) : keeps g (@lift S A r).
Proof. intros s; reflexivity. Qed.

Lemma keeps_gets {A} (f : S -> A) : keeps g (gets f).
Proof. intros s; reflexivity. Qed.

Lemma keeps_modify (f : S -> S) : (forall s, g (f s) = g s) -> keeps g (modify f).
Proof. intros Hf s; apply Hf. Qed.

Lemma keeps_bind {A C} (m : PyM S A) (k : A -> PyM S C) :
  keeps g m -> (forall a, keeps g (k a)) -> keeps g (bind m k).
Proof.
  intros Hm Hk s. unfold final, bind.
  specialize (Hm s). unfold final in Hm.
  destruct (m s) as [s' [e|a]]; simpl in *; [assumption|].
  rewrite <- Hm. apply Hk.
Qed.

Lemma keeps_has_field o name : keeps g (@has_field S o name).
Proof. destruct o; intros s; reflexivity. Qed.

Lemma keeps_read_field o name : keeps g (@read_field S o name).
Proof.
  destruct o as [| |fields]; intros s; try reflexivity.
  unfold final, read_field. destruct (fields !! name) as [[vals|vals|e]|]; reflexivity.
Qed.

Lemma keeps_np_min a : keeps g (@np_min S a).
Proof. destruct a as [[|x xs]|[|x xs]]; intros s; reflexivity. Qed.

Lemma keeps_np_max a : keeps g (@np_max S a).
Proof. destruct a as [[|x xs]|[|x xs]]; intros s; reflexivity. Qed.

Lemma keeps_first_row a : keeps g (@first_row S a).
Proof.
  unfold first_row, py_int. destruct (0 <? array_len a)%nat; [|apply keeps_ret].
  destruct (array_first a); [|apply keeps_raise].
  apply keeps_bind; [apply keeps_lift|intros z; apply keeps_ret].
Qed.
End Keeps.

(** Splits a [keeps] goal along the structure of the computation. *)
Ltac keeps_step :=
  match goal with
  | |- keeps _ (bind _ _) => apply keeps_bind; [|intros ?]
  | |- keeps _ (ret _) => apply keeps_ret
  | |- keeps _ (raise _) => apply keeps_raise
  | |- keeps _ (lift _) => apply keeps_lift
  | |- keeps _ (py_int _) => apply keeps_lift
  | |- keeps _ (gets _) => apply keeps_gets
  | |- keeps _ (modify _) => apply keeps_modify; intros ?; reflexivity
  | |- keeps _ (has_field _ _) => apply keeps_has_field
  | |- keeps _ (read_field _ _) => apply keeps_read_field
  | |- keeps _ (first_row _) => apply keeps_first_row
  | |- keeps _ (np_min _) => apply keeps_np_min
  | |- keeps _ (np_max _) => apply keeps_np_max
  | |- keeps _ (match ?x with _ => _ end) => destruct x
  | |- keeps _ (if ?b then _ else _) => destruct b
  end.

Lemma keeps_scan_sites {B} (g : Metadata.t -> B) parts sites :
  (forall v m, g (Metadata.set_model_name v m) = g m) ->
  keeps g (scan_sites parts sites).
Proof.
  intros Hg. induction sites as [|site rest IH]; simpl.
  - apply keeps_ret.
  - destruct (bool_decide (site ∈ parts)); [|exact IH].
    apply keeps_modify. intros m; apply Hg.
Qed.

(** No step of the [try] body assigns to [metadata["file_path"]]. *)
Lemma read_container_keeps_file_path host file_path :
  keeps Metadata.file_path (read_container host file_path).
Proof.
  unfold read_container. apply keeps_bind; [apply keeps_lift|intros f].
  apply keeps_bind; [|intros _; apply keeps_bind; [|intros _]].
  - unfold read_attrs. repeat keeps_step.
  - unfold read_events, read_event_ids. repeat keeps_step.
  - unfold infer_from_path. repeat keeps_step.
    apply keeps_scan_sites. reflexivity.
Qed.

Lemma printed_nil w : printed w [] = w.
Proof. destruct w; unfold printed; simpl. by rewrite app_nil_r. Qed.

Lemma printed_app w l1 l2 : printed (printed w l1) l2 = printed w (l1 ++ l2).
Proof. unfold printed; simpl. by rewrite app_assoc. Qed.

(** [extract_metadata] in one step. *)
Lemma extract_metadata_eq host path w :
  extract_metadata host path w =
    match resolve host path with
    | inl e => (w, inl e)
    | inr p => (printed w (read_warnings host p), inr (extracted host p))
    end.
Proof.
  unfold extract_metadata, bind, lift.
  destruct (resolve host path) as [e|p]; [reflexivity|].
  unfold read_warnings, extracted, final.
  destruct (read_container _ _ _) as [md [e|[]]]; simpl.
  - reflexivity.
  - by rewrite printed_nil.
Qed.

Lemma extracted_file_path host p :
  Metadata.file_path (extracted host p) = Some p.
Proof. unfold extracted. by rewrite read_container_keeps_file_path. Qed.



(** ** Readable containers *)



(** The attribute step always returns; each field comes from the
    attribute of its name, or else from the fallback attribute. *)
Lemma read_attrs_returns attrs md :
  exists md',
    read_attrs attrs md = (md', inr tt) /\
    Metadata.spine_version md' =
      match attr_or attrs "spine_version" "version" with
      | Some v => Some v
      | None => Metadata.spine_version md
      end /\
    Metadata.spine_prod_version md' =
      match attrs !! "spine_prod_version" with
      | Some v => Some v
      | None => Metadata.spine_prod_version md
      end /\
    Metadata.model_name md' =
      match attr_or attrs "model_name" "config_name" with
      | Some v => Some v
      | None => Metadata.model_name md
      end /\
    Metadata.dataset_name md' =
      match attr_or attrs "dataset_name" "dataset" with
      | Some v => Some v
      | None => Metadata.dataset_name md
      end.
Proof.
  unfold read_attrs, attr_or, bind, modify, ret.
  destruct (attrs !! "spine_version"), (attrs !! "version"),
    (attrs !! "spine_prod_version"), (attrs !! "model_name"),
    (attrs !! "config_name"), (attrs !! "dataset_name"), (attrs !! "dataset");
    simpl; eexists; repeat split; reflexivity.
Qed.

(** One of the two column steps of lines 90-96, followed by the rest of
    the body: on a column that can be read and converted the step
    assigns the first value, or [None] for a column without rows. *)
Lemma column_step {A} fields name (set : option Z -> Metadata.t -> Metadata.t)
    (rest : PyM Metadata.t A) md :
  column_ok (fields !! name) = true ->
  (do has <- has_field (H5Table fields) name;
   do_ (if has then
          do a <- read_field (H5Table fields) name;
          do v <- first_row a;
          modify (set v)
        else ret tt);
   rest) md
  = rest (match fields !! name with
          | Some _ => set (first_value (fields !! name)) md
          | None => md
          end).
Proof.
  unfold has_field, read_field, first_row, py_int, lift, bind, ret, raise, modify.
  destruct (fields !! name) as [[[|x xs]|[|[q| | |] xs]|e]|]; simpl; try discriminate;
    intros _; reflexivity.
Qed.

(** The event identifier step on a column that can be read and
    converted. *)
Lemma read_event_ids_returns fields md :
  range_column_ok (event_column fields) = true ->
  exists md',
    read_event_ids (H5Table fields) md = (md', inr tt) /\
    Metadata.spine_version md' = Metadata.spine_version md /\
    Metadata.model_name md' = Metadata.model_name md /\
    Metadata.dataset_name md' = Metadata.dataset_name md /\
    Metadata.run md' = Metadata.run md /\
    Metadata.subrun md' = Metadata.subrun md /\
    forall x xs,
      event_column fields = Some (ColValues (x :: xs)) ->
      Metadata.event_min md' = Some (fold_left Z.min xs x) /\
      Metadata.event_max md' = Some (fold_left Z.max xs x) /\
      Metadata.num_events md' = Some (Z.of_nat (length (x :: xs))).
Proof.
  unfold read_event_ids, event_column.
  unfold has_field, read_field, py_int, lift, bind, modify, ret, raise, np_min, np_max.
  destruct (fields !! "event") as [[[|x xs]|[|x xs]|?]|] eqn:Hev;
    try (destruct (fields !! "event_id") as [[[|x xs]|[|x xs]|?]|] eqn:Hid);
    simpl; try discriminate; rewrite ?Hev, ?Hid; simpl;
    try (destruct (fold_left float_min xs x) as [lo| | |]; simpl; try discriminate;
         destruct (fold_left float_max xs x) as [hi| | |]; simpl; try discriminate);
    intros _; eexists; repeat (split; [reflexivity|]);
    intros y ys Hcol; try discriminate Hcol; inversion Hcol; subst;
    repeat split; reflexivity.
Qed.

(** On a readable table the event step returns, leaves the names alone,
    takes [run] and [subrun] from the first rows and derives the range
    from a non-empty identifier column. *)
Lemma read_events_returns f md :
  readable f = true ->
  exists md',
    read_events f md = (md', inr tt) /\
    Metadata.spine_version md' = Metadata.spine_version md /\
    Metadata.model_name md' = Metadata.model_name md /\
    Metadata.dataset_name md' = Metadata.dataset_name md /\
    forall fields,
      h5_members f !! "events" = Some (H5Table fields) ->
      Metadata.run md' =
        match fields !! "run" with
        | Some _ => first_value (fields !! "run")
        | None => Metadata.run md
        end /\
      Metadata.subrun md' =
        match fields !! "subrun" with
        | Some _ => first_value (fields !! "subrun")
        | None => Metadata.subrun md
        end /\
      forall x xs,
        event_column fields = Some (ColValues (x :: xs)) ->
        Metadata.event_min md' = Some (fold_left Z.min xs x) /\
        Metadata.event_max md' = Some (fold_left Z.max xs x) /\
        Metadata.num_events md' = Some (Z.of_nat (length (x :: xs))).
Proof.
  unfold readable, read_events.
  destruct (h5_members f !! "events") as [[| |fields]|]; try discriminate.
  - intros Hok. apply andb_prop in Hok as [Hok Hev]. apply andb_prop in Hok as [Hrun Hsub].
    rewrite (column_step fields "run" Metadata.set_run _ md Hrun).
    rewrite (column_step fields "subrun" Metadata.set_subrun _ _ Hsub).
    destruct (read_event_ids_returns fields
                (match fields !! "subrun" with
                 | Some _ =>
                     Metadata.set_subrun (first_value (fields !! "subrun"))
                       (match fields !! "run" with
                        | Some _ => Metadata.set_run (first_value (fields !! "run")) md
                        | None => md
                        end)
                 | None =>
                     match fields !! "run" with
                     | Some _ => Metadata.set_run (first_value (fields !! "run")) md
                     | None => md
                     end
                 end) Hev)
      as (md' & Hrun' & Kv & Km & Kd & Kr & Ks & Krange).
    exists md'. split; [exact Hrun'|].
    rewrite Kv, Km, Kd.
    split; [by destruct (fields !! "subrun"), (fields !! "run")|].
    split; [by destruct (fields !! "subrun"), (fields !! "run")|].
    split; [by destruct (fields !! "subrun"), (fields !! "run")|].
    intros fields' Hf. assert (fields' = fields) as -> by congruence.
    rewrite Kr, Ks.
    split; [by destruct (fields !! "subrun"), (fields !! "run")|].
    split; [by destruct (fields !! "subrun"), (fields !! "run")|].
    exact Krange.
  - intros _. eexists. repeat (split; [reflexivity|]). discriminate.
Qed.

(** The site loop, in one step: the first entry of [sites] found among
    the path parts becomes the model name. *)
Lemma scan_sites_eq parts sites md :
  scan_sites parts sites md =
    (match find (fun site => bool_decide (site ∈ parts)) sites with
     | Some site => Metadata.set_model_name (Some site) md
     | None => md
     end, inr tt).
Proof.
  induction sites as [|site rest IH]; simpl; [reflexivity|].
  destruct (bool_decide (site ∈ parts)); [reflexivity|exact IH].
Qed.

(** The path step always returns and leaves everything but the two names
    alone; a name that is absent or empty is looked up in the path. *)
Lemma infer_from_path_returns host file_path md :
  exists md',
    infer_from_path host file_path md = (md', inr tt) /\
    Metadata.run md' = Metadata.run md /\
    Metadata.subrun md' = Metadata.subrun md /\
    Metadata.event_min md' = Metadata.event_min md /\
    Metadata.event_max md' = Metadata.event_max md /\
    Metadata.num_events md' = Metadata.num_events md /\
    Metadata.model_name md' =
      (if truthy (Metadata.model_name md) then Metadata.model_name md
       else match find (fun site => bool_decide (site ∈ path_parts host file_path))
                       known_sites with
            | Some site => Some site
            | None => Metadata.model_name md
            end) /\
    Metadata.dataset_name md' =
      (if truthy (Metadata.dataset_name md) then Metadata.dataset_name md
       else Some (path_stem host file_path)).
Proof.
  unfold infer_from_path, bind, gets.
  destruct (truthy (Metadata.model_name md)) eqn:Hm; cbn [negb].
  - unfold ret, modify.
    destruct (truthy (Metadata.dataset_name md)); cbn [negb];
      eexists; repeat split; reflexivity.
  - rewrite scan_sites_eq. unfold ret, modify.
    destruct (find _ known_sites) as [site|] eqn:Hfind.
    + change (Metadata.dataset_name (Metadata.set_model_name (Some site) md))
        with (Metadata.dataset_name md).
      destruct (truthy (Metadata.dataset_name md)); cbn [negb];
        eexists; repeat split; reflexivity.
    + destruct (truthy (Metadata.dataset_name md)); cbn [negb];
        eexists; repeat split; reflexivity.
Qed.

(** On a readable container the three steps of the [try] body all
    return, and [extract_metadata] returns the dict they leave without
    printing. *)
Lemma extract_metadata_readable host path p w f :
  resolve host path = inr p ->
  h5open host p = inr f ->
  readable f = true ->
  exists m1 m2 m3,
    read_attrs (h5_attrs f) (Metadata.initial p) = (m1, inr tt) /\
    read_events f m1 = (m2, inr tt) /\
    infer_from_path host p m2 = (m3, inr tt) /\
    extract_metadata host path w = (w, inr m3).
Proof.
  intros Hres Hopen Hok.
  destruct (read_attrs_returns (h5_attrs f) (Metadata.initial p)) as (m1 & H1 & _).
  destruct (read_events_returns f m1 Hok) as (m2 & H2 & _).
  destruct (infer_from_path_returns host p m2) as (m3 & H3 & _).
  exists m1, m2, m3. repeat split; try assumption.
  assert (Hrun : read_container host p (Metadata.initial p) = (m3, inr tt)).
  { unfold read_container, bind, lift. rewrite Hopen. by rewrite H1, H2. }
  rewrite extract_metadata_eq, Hres. unfold read_warnings, extracted, final.
  rewrite Hrun. simpl. by rewrite printed_nil.
Qed.

(** ** A read that fails *)





(** ** The event range *)



(** ** The model-name fallback *)

(** C8, as stated, fails: in [/data/sbnd/icarus/mixed.h5] the first path
    segment that is a known site is [sbnd], and the code answers
    [icarus], which comes first in its own list. *)
Lemma first_segment_does_not_win :
  ~ model_from_first_segment demo_host "/data/sbnd/icarus/mixed.h5".
Proof.
  intros H.
  destruct (H "/data/sbnd/icarus/mixed.h5"
              {| h5_attrs := list_to_map [];
                 h5_members := {[ "events" := H5Table (list_to_map []) ]} |}
              eq_refl eq_refl eq_refl eq_refl eq_refl empty_world) as (md & w' & Hrun & Hname).
  vm_compute in Hrun. injection Hrun as _ <-.
  vm_compute in Hname. discriminate Hname.
Qed.

(** C8, amended.  On a readable container with neither a [model_name]
    nor a [config_name] attribute, the model name returned is the first
    entry of the list icarus, sbnd, 2x2, nd-lar, fsd that occurs among the
    parts of the resolved path, and is absent when none occurs; a path
    with a part [icarus] therefore gives [icarus]. *)
Theorem model_name_fallback (host : Host) (path p : string) (w : World) (f : H5File) :
  resolve host path = inr p ->
  h5open host p = inr f ->
  readable f = true ->
  h5_attrs f !! "model_name" = None ->
  h5_attrs f !! "config_name" = None ->
  exists md,
    extract_metadata host path w = (w, inr md) /\
    Metadata.model_name md =
      find (fun site => bool_decide (site ∈ path_parts host p))
           ["icarus"; "sbnd"; "2x2"; "nd-lar"; "fsd"] /\
    ("icarus" ∈ path_parts host p -> Metadata.model_name md = Some "icarus").
Proof.
  intros Hres Hopen Hok Hmodel Hconfig.
  destruct (extract_metadata_readable host path p w f Hres Hopen Hok)
    as (m1 & m2 & m3 & H1 & H2 & H3 & Hrun).
  destruct (read_attrs_returns (h5_attrs f) (Metadata.initial p))
    as (m1' & H1' & _ & _ & Hname1 & _).
  rewrite H1 in H1'. injection H1' as <-.
  unfold attr_or in Hname1. rewrite Hmodel, Hconfig in Hname1. simpl in Hname1.
  destruct (read_events_returns f m1 Hok) as (m2' & H2' & _ & Hname2 & _).
  rewrite H2 in H2'. injection H2' as <-.
  destruct (infer_from_path_returns host p m2)
    as (m3' & H3' & _ & _ & _ & _ & _ & Hname3 & _).
  rewrite H3 in H3'. injection H3' as <-.
  rewrite Hname2, Hname1 in Hname3. cbn [truthy] in Hname3.
  assert (Hfind : Metadata.model_name m3 =
    find (fun site => bool_decide (site ∈ path_parts host p)) known_sites).
  { rewrite Hname3. by destruct (find _ known_sites). }
  exists m3. split; [exact Hrun|]. split; [exact Hfind|].
  intros Hin. rewrite Hfind. unfold known_sites. cbn [find].
  by rewrite bool_decide_true.
Qed.

Lemma model_name_fallback_witness :
  exists md,
    extract_metadata demo_host "/data/sbnd/icarus/mixed.h5" empty_world = (empty_world, inr md) /\
    Metadata.model_name md = Some "icarus".
Proof.
  destruct (model_name_fallback demo_host "/data/sbnd/icarus/mixed.h5"
              "/data/sbnd/icarus/mixed.h5" empty_world
              {| h5_attrs := list_to_map [];
                 h5_members := {[ "events" := H5Table (list_to_map []) ]} |}
              eq_refl eq_refl eq_refl eq_refl eq_refl) as (md & Hrun & _ & Hicarus).
  exists md. split; [exact Hrun|].
  apply Hicarus.
  assert (Hparts : path_parts demo_host "/data/sbnd/icarus/mixed.h5"
                   = ["/"; "data"; "sbnd"; "icarus"; "mixed.h5"]) by (vm_compute; reflexivity).
  rewrite Hparts. do 3 apply list_elem_of_further. apply list_elem_of_here.
Defined.

(** ** The indexer, file by file *)

Lemma after_same w : after w (session w, []) = w.
Proof. destruct w; unfold after; simpl. by rewrite app_nil_r. Qed.

Lemma after_after w s1 m1 s2 m2 :
  after (after w (s1, m1)) (s2, m2) = after w (s2, m1 ++ m2).
Proof. unfold after; simpl. by rewrite app_assoc. Qed.

(** The [try] of [index_file] always returns. *)
Lemma index_new_eq host file_path w :
  index_new host file_path w =
    (after w (fst (new_outcome host file_path (session w))),
     inr (snd (new_outcome host file_path (session w)))).
Proof.
  unfold index_new, try_except, bind, new_outcome.
  rewrite extract_metadata_eq.
  destruct (resolve host file_path) as [e|p]; [reflexivity|].
  unfold validate_metadata. rewrite extracted_file_path. cbn [negb].
  unfold session_add, session_commit, session_rollback, with_session, print, modify, ret, after.
  simpl.
  destruct (flush _ _ _ _) as [e|[rows now]]; simpl; by rewrite <- app_assoc.
Qed.

Lemma index_file_eq host path skip_existing w :
  index_file host path skip_existing w =
    (after w (fst (file_outcome host path skip_existing (session w))),
     snd (file_outcome host path skip_existing (session w))).
Proof.
  unfold index_file, file_outcome, bind, lift.
  destruct (resolve host path) as [e|file_path]; [by rewrite after_same|].
  destruct skip_existing; [|apply index_new_eq].
  unfold session_query_first, bind, gets.
  destruct (query_error host _ file_path) as [e|]; [by rewrite after_same|].
  unfold ret. destruct (find _ _) as [r|]; [|apply index_new_eq].
  reflexivity.
Qed.

Lemma read_warnings_cases host p :
  read_warnings host p = [] \/ exists e, read_warnings host p = [ReadWarning p e].
Proof. unfold read_warnings. destruct (snd _) as [e|_]; eauto. Qed.

(** [index_file] never prints the invalid-metadata line. *)
Lemma file_outcome_never_invalid host path skip_existing s q :
  InvalidMetadata q ∉ snd (fst (file_outcome host path skip_existing s)).
Proof.
  assert (Hw : forall p, InvalidMetadata q ∉ read_warnings host p).
  { intros p. destruct (read_warnings_cases host p) as [->|[e ->]]; set_solver. }
  assert (Hnew : forall p, InvalidMetadata q ∉ snd (fst (new_outcome host p s))).
  { intros p. unfold new_outcome. destruct (resolve host p) as [e|p']; [simpl; set_solver|].
    specialize (Hw p').
    destruct (flush _ _ _ _) as [e|[rows now]]; simpl; set_solver. }
  unfold file_outcome. destruct (resolve host path) as [e|p]; [simpl; set_solver|].
  destruct skip_existing; [|apply Hnew].
  destruct (query_error _ _ _); [simpl; set_solver|].
  destruct (find _ _); [simpl; set_solver|apply Hnew].
Qed.

Lemma new_outcome_pending host file_path s :
  pending (fst (fst (new_outcome host file_path s))) = [].
Proof.
  unfold new_outcome. destruct (resolve host file_path) as [e|p]; [reflexivity|].
  destruct (flush _ _ _ _) as [e|[rows now]]; reflexivity.
Qed.

Lemma file_outcome_pending host path skip_existing s :
  pending s = [] -> pending (fst (fst (file_outcome host path skip_existing s))) = [].
Proof.
  intros Hp. unfold file_outcome. destruct (resolve host path) as [e|p]; [exact Hp|].
  destruct skip_existing; [|apply new_outcome_pending].
  destruct (query_error _ _ _); [exact Hp|].
  destruct (find _ _); [exact Hp|apply new_outcome_pending].
Qed.

(** C10.  [validate_metadata] accepts a dict exactly when its
    [file_path] is not absent.  Whenever [extract_metadata] returns, the
    dict has the resolved path under [file_path] and passes
    [validate_metadata], and it returns on every path that resolves,
    unreadable containers included.  [index_file] never prints the
    invalid-metadata line, whichever way it ends: that branch is never
    taken.  It returns whenever the resolution and the query before its
    [try] do. *)
Theorem extractor_output_always_valid (host : Host) (path : string)
    (skip_existing : bool) (w : World) :
  (forall md, validate_metadata md = true <-> Metadata.file_path md <> None) /\
  (forall md w',
     extract_metadata host path w = (w', inr md) ->
     validate_metadata md = true /\
     exists p, resolve host path = inr p /\ Metadata.file_path md = Some p) /\
  (forall p,
     resolve host path = inr p ->
     exists md w',
       extract_metadata host path w = (w', inr md) /\
       Metadata.file_path md = Some p /\
       validate_metadata md = true) /\
  (exists msgs,
     stdout (fst (index_file host path skip_existing w)) = stdout w ++ msgs /\
     forall q, InvalidMetadata q ∉ msgs) /\
  (forall p,
     resolve host path = inr p ->
     (skip_existing = true -> query_error host (table (session w)) p = None) ->
     exists w' ok, index_file host path skip_existing w = (w', inr ok)).
Proof.
  split; [|split; [|split; [|split]]].
  - intros md. unfold validate_metadata.
    destruct (Metadata.file_path md); split; congruence.
  - intros md w' Hrun. rewrite extract_metadata_eq in Hrun.
    destruct (resolve host path) as [e|p]; [discriminate|].
    injection Hrun as _ <-. unfold validate_metadata. rewrite extracted_file_path.
    split; [reflexivity|]. by exists p.
  - intros p Hres. rewrite extract_metadata_eq, Hres.
    eexists _, _. split; [reflexivity|].
    unfold validate_metadata. rewrite extracted_file_path. by split.
  - rewrite index_file_eq. eexists. split; [reflexivity|].
    intros q. apply file_outcome_never_invalid.
  - intros p Hres Hquery. rewrite index_file_eq. unfold file_outcome. rewrite Hres.
    destruct skip_existing; [|by eexists _, _].
    rewrite (Hquery eq_refl). destruct (find _ _); by eexists _, _.
Qed.

Lemma extractor_output_always_valid_witness :
  (exists md w',
     extract_metadata demo_host "/data/corrupt.h5" empty_world = (w', inr md) /\
     Metadata.file_path md = Some "/data/corrupt.h5" /\
     validate_metadata md = true) /\
  (exists w' ok, index_file demo_host "/data/corrupt.h5" true empty_world = (w', inr ok)).
Proof.
  destruct (extractor_output_always_valid demo_host "/data/corrupt.h5" true empty_world)
    as (_ & _ & Hreturns & _ & Hindex).
  split.
  - apply Hreturns. reflexivity.
  - apply (Hindex "/data/corrupt.h5"); reflexivity.
Defined.

(** ** The indexer, over a batch *)

Lemma index_loop_eq host file_list skip_existing a b w :
  index_loop host file_list skip_existing a b w =
    let r := loop_outcome host file_list skip_existing (session w) in
    (after w (fst r),
     match snd r with
     | inl e => inl e
     | inr counts => inr ((a + fst counts)%nat, (b + snd counts)%nat)
     end).
Proof.
  revert a b w. induction file_list as [|path rest IH]; intros a b w; simpl.
  - unfold ret. by rewrite after_same, !Nat.add_0_r.
  - unfold candidate_outcome, bind, lift.
    destruct (path_exists host path) as [e|[|]]; cbn [fst snd].
    + by rewrite after_same.
    + rewrite index_file_eq.
      destruct (file_outcome host path skip_existing (session w)) as [[s1 m1] [e|[|]]];
        cbn [fst snd]; [reflexivity| |]; rewrite IH; cbn [after session fst snd];
        destruct (loop_outcome host rest skip_existing s1) as [[s2 m2] [e2|[n2 e2]]];
        cbn [fst snd count]; rewrite after_after; try reflexivity;
        do 2 f_equal; f_equal; lia.
    + unfold print, modify. rewrite IH. cbn [session fst snd].
      destruct (loop_outcome host rest skip_existing (session w)) as [[s2 m2] [e2|[n2 e2]]];
        cbn [fst snd count]; unfold after; cbn [fst snd stdout session];
        rewrite <- app_assoc; try reflexivity.
      do 2 f_equal; f_equal; lia.
Qed.



Lemma candidate_outcome_pending host path skip_existing s :
  pending s = [] -> pending (fst (fst (candidate_outcome host path skip_existing s))) = [].
Proof.
  intros Hp. unfold candidate_outcome.
  destruct (path_exists host path) as [e|[|]]; [exact Hp| |exact Hp].
  by apply file_outcome_pending.
Qed.

Lemma loop_outcome_pending host file_list skip_existing s :
  pending s = [] ->
  pending (fst (fst (loop_outcome host file_list skip_existing s))) = [].
Proof.
  revert s. induction file_list as [|path rest IH]; intros s Hp; simpl; [exact Hp|].
  pose proof (candidate_outcome_pending host path skip_existing s Hp) as Hp1.
  destruct (candidate_outcome host path skip_existing s) as [[s1 m1] [e|ok]];
    cbn [fst snd] in *; [exact Hp1|].
  by apply IH.
Qed.

(** The expansion loop touches no state. *)
Lemma expand_files_eq {S} host files file_list (s : S) :
  expand_files host files file_list s =
    (s, match expansion host files with
        | inl e => inl e
        | inr l => inr (file_list ++ l)
        end).
Proof.
  revert file_list. induction files as [|pattern rest IH]; intros file_list; simpl.
  - unfold ret. by rewrite app_nil_r.
  - destruct (has_wildcard pattern).
    + unfold bind, lift. destruct (glob host pattern) as [e|matches]; [reflexivity|].
      rewrite IH. destruct (expansion host rest) as [e|l]; [reflexivity|].
      by rewrite <- app_assoc.
    + rewrite IH. destruct (expansion host rest) as [e|l]; [reflexivity|].
      by rewrite <- app_assoc.
Qed.

(** [index_files] on a store that can be reached, in one step. *)
Lemma index_files_eq host db_url files skip_existing w :
  connect host db_url = None ->
  let s0 := {| table := table (session w); pending := []; clock := clock (session w) |} in
  index_files host db_url files skip_existing w =
    match expansion host files with
    | inl e => ({| session := s0; stdout := stdout w |}, inl e)
    | inr file_list =>
        let r := loop_outcome host file_list skip_existing s0 in
        match snd r with
        | inl e =>
            ({| session := fst (fst r);
                stdout := stdout w ++ Found (length file_list) :: snd (fst r) |}, inl e)
        | inr counts =>
            ({| session := {| table := table (fst (fst r)); pending := [];
                              clock := clock (fst (fst r)) |};
                stdout := stdout w ++ Found (length file_list) :: snd (fst r)
                            ++ [Complete (fst counts) (snd counts)] |},
             inr None)
        end
    end.
Proof.
  intros Hconn. simpl. unfold index_files. rewrite Hconn.
  unfold bind, get_session, session_close, session_rollback, with_session, print, modify.
  rewrite expand_files_eq. destruct (expansion host files) as [e|file_list]; [reflexivity|].
  cbn [app]. rewrite index_loop_eq. cbn [session stdout].
  destruct (loop_outcome _ _ _ _) as [[s1 m1] [e|[n1 e1]]]; cbn [fst snd after session stdout].
  - unfold after. cbn [fst snd stdout]. by rewrite <- app_assoc.
  - unfold ret. do 2 f_equal. rewrite <- !app_assoc. reflexivity.
Qed.

(** ** Rows and paths *)




Lemma find_some_has_path rows p r :
  find (fun r => bool_decide (SpineFile.file_path r = Some p)) rows = Some r ->
  has_path rows p = true.
Proof.
  intros Hfind. apply find_some in Hfind as [Hin Hr].
  apply bool_decide_eq_true in Hr.
  unfold has_path. apply bool_decide_eq_true. rewrite <- Hr.
  apply list_elem_of_fmap. exists r. split; [reflexivity|by apply list_elem_of_In].
Qed.





(** With nothing else pending and a path that resolves to itself, the
    [try] of [index_file] inserts exactly when the driver takes the row
    and the path is not yet in the table. *)
Lemma new_outcome_cases host p s :
  pending s = [] ->
  resolve host p = inr p ->
  let md := extracted host p in
  new_outcome host p s =
    match insert_error host (table s) (make_row md) with
    | Some e => (s, read_warnings host p ++ [IndexFailed p e], false)
    | None =>
        if has_path (table s) p
        then (s, read_warnings host p
                   ++ [IndexFailed p (IntegrityError (unique_violation host (make_row md)))],
              false)
        else ({| table := table s ++ [SpineFile.stored (next_id (table s)) (clock s) (make_row md)];
                 pending := []; clock := S (clock s) |},
              read_warnings host p
                ++ [Indexed p (Metadata.run md) (Metadata.subrun md)
                      (Metadata.num_events md) (Metadata.spine_version md)],
              true)
    end.
Proof.
  intros Hp Hres. unfold new_outcome. rewrite Hres, Hp. simpl.
  assert (Hs : {| table := table s; pending := []; clock := clock s |} = s).
  { destruct s as [rows pend now]. simpl in *. by subst pend. }
  rewrite Hs.
  destruct (insert_error host (table s) (make_row (extracted host p))); [reflexivity|].
  rewrite extracted_file_path.
  destruct (has_path (table s) p); reflexivity.
Qed.

Lemma stored_file_path host p i now :
  SpineFile.file_path (SpineFile.stored i now (make_row (extracted host p))) = Some p.
Proof. simpl. by rewrite extracted_file_path. Qed.

(** ** Uniqueness *)




(** ** Idempotence *)



(** ** Partial-failure isolation *)









(** ** What [index_files] gives back *)










(** ** The candidate list *)

Lemma contains_char_chars c pattern :
  contains_char c pattern = bool_decide (c ∈ chars pattern).
Proof.
  induction pattern as [|d rest IH]; cbn [contains_char chars].
  - symmetry. apply bool_decide_eq_false. intros Hin. by apply elem_of_nil in Hin.
  - rewrite IH. destruct (Ascii.eqb_spec c d) as [->|Hne]; cbn [orb].
    + symmetry. apply bool_decide_eq_true. apply list_elem_of_here.
    + apply bool_decide_ext. rewrite elem_of_cons.
      split; [by right|]. intros [?|?]; [congruence|done].
Qed.

(** The test of line 103 is the test for a star or a question mark. *)
Lemma has_wildcard_star_or_question pattern :
  has_wildcard pattern = star_or_question pattern.
Proof.
  unfold has_wildcard, star_or_question. rewrite !contains_char_chars.
  destruct (bool_decide ("*"%char ∈ chars pattern)) eqn:Hstar;
    destruct (bool_decide ("?"%char ∈ chars pattern)) eqn:Hq; simpl; symmetry;
    try (apply bool_decide_eq_true; apply bool_decide_eq_true in Hstar; by left);
    try (apply bool_decide_eq_true; apply bool_decide_eq_true in Hq; by right).
  apply bool_decide_eq_false. apply bool_decide_eq_false in Hstar, Hq. tauto.
Qed.

(** C9, as stated, fails: [/data/icarus/run1[2].h5] contains a wildcard
    character of the glob, the bracket, and the glob matches it with
    [/data/icarus/run12.h5]; the code tests for a star or a question
    mark only and takes the entry literally. *)
Lemma bracket_pattern_is_not_expanded :
  ~ expands_glob_patterns demo_host ["/data/icarus/run1[2].h5"].
Proof.
  intros H. specialize (H empty_world). vm_compute in H. discriminate H.
Qed.

(** C9, amended.  An entry is expanded by the glob exactly when it
    contains a star or a question mark; every other entry, one with a
    bracket class included, is a candidate as it stands, whether it
    exists or not.  When every glob returns, the candidate list is the
    concatenation, in the order of the entries, of the glob results and
    of the literal entries, with nothing removed, as long as its pieces
    together.  When a glob raises, so does the expansion, with the
    exception of the first one that does. *)
Theorem candidate_list_expansion (host : Host) (files : list string) (w : World) :
  (forall pattern, has_wildcard pattern = star_or_question pattern) /\
  (Forall (fun pattern => star_or_question pattern = true ->
                          exists matches, glob host pattern = inr matches) files ->
   exists file_list,
     expand_files host files [] w = (w, inr file_list) /\
     file_list = concat (map (fun pattern =>
                                if star_or_question pattern
                                then matches_of host pattern else [pattern]) files) /\
     (forall pattern,
        pattern ∈ files -> star_or_question pattern = false -> pattern ∈ file_list) /\
     length file_list
     = foldr (fun pattern n =>
                ((if star_or_question pattern
                  then length (matches_of host pattern) else 1) + n)%nat)
             0%nat files) /\
  (forall l1 pattern l2 e,
     files = l1 ++ pattern :: l2 ->
     Forall (fun pattern => star_or_question pattern = true ->
                            exists matches, glob host pattern = inr matches) l1 ->
     star_or_question pattern = true ->
     glob host pattern = inl e ->
     expand_files host files [] w = (w, inl e)).
Proof.
  split; [exact has_wildcard_star_or_question|]. split.
  - intros Hall.
    assert (Hexp : expansion host files
                   = inr (concat (map (fun pattern =>
                                         if star_or_question pattern
                                         then matches_of host pattern else [pattern]) files))).
    { induction Hall as [|pattern rest Hpattern _ IH]; [reflexivity|].
      cbn [expansion map concat]. rewrite has_wildcard_star_or_question, IH.
      destruct (star_or_question pattern); [|reflexivity].
      destruct (Hpattern eq_refl) as [matches Hglob].
      unfold matches_of. by rewrite Hglob. }
    exists (concat (map (fun pattern =>
                           if star_or_question pattern
                           then matches_of host pattern else [pattern]) files)).
    split; [rewrite expand_files_eq, Hexp; reflexivity|].
    split; [reflexivity|]. split.
    + intros pattern Hin Hwild.
      apply list_elem_of_In, in_concat. exists [pattern]. split; [|by left].
      apply in_map_iff. exists pattern. rewrite Hwild.
      split; [reflexivity|by apply list_elem_of_In].
    + clear Hall Hexp. induction files as [|pattern rest IH]; [reflexivity|].
      cbn [map concat foldr]. rewrite length_app, IH.
      by destruct (star_or_question pattern).
  - intros l1 pattern l2 e -> Hall Hwild Hglob.
    rewrite expand_files_eq.
    assert (Hexp : expansion host (l1 ++ pattern :: l2) = inl e).
    { induction Hall as [|q rest Hq _ IH]; cbn [app expansion].
      - by rewrite has_wildcard_star_or_question, Hwild, Hglob.
      - rewrite has_wildcard_star_or_question, IH.
        destruct (star_or_question q); [|reflexivity].
        destruct (Hq eq_refl) as [matches ->]. reflexivity. }
    by rewrite Hexp.
Qed.

(** Overlapping patterns give the same candidate twice, a literal entry
    that is not on disk stays in the list, and so does an entry with a
    bracket class. *)
Lemma candidate_list_expansion_witness :
  expand_files demo_host
    ["/data/icarus/*.h5"; "/data/*/run12.h5"; "/data/missing.h5"; "/data/icarus/run1[2].h5"]
    [] empty_world
  = (empty_world,
     inr ["/data/icarus/run12.h5"; "/data/icarus/run12.h5"; "/data/missing.h5";
          "/data/icarus/run1[2].h5"]).
Proof.
  destruct (proj1 (proj2 (candidate_list_expansion demo_host
              ["/data/icarus/*.h5"; "/data/*/run12.h5"; "/data/missing.h5";
               "/data/icarus/run1[2].h5"] empty_world)))
    as (file_list & Hrun & Hlist & _).
  - constructor; [intros _; by eexists|].
    constructor; [intros _; by eexists|].
    constructor; [discriminate|].
    constructor; [discriminate|constructor].
  - rewrite Hrun, Hlist. vm_compute. reflexivity.
Defined.

(** * Further properties of the code *)

(** ** The extractor: event range and attribute fallbacks *)




















(** The names of a readable container, step by step. *)
Lemma extracted_names host path p w f :
  resolve host path = inr p ->
  h5open host p = inr f ->
  readable f = true ->
  exists md,
    extract_metadata host path w = (w, inr md) /\
    Metadata.model_name md =
      (let a := attr_or (h5_attrs f) "model_name" "config_name" in
       if truthy a then a
       else match find (fun site => bool_decide (site ∈ path_parts host p)) known_sites with
            | Some site => Some site
            | None => a
            end) /\
    Metadata.dataset_name md =
      (let a := attr_or (h5_attrs f) "dataset_name" "dataset" in
       if truthy a then a else Some (path_stem host p)).
Proof.
  intros Hres Hopen Hok.
  destruct (extract_metadata_readable host path p w f Hres Hopen Hok)
    as (m1 & m2 & m3 & H1 & H2 & H3 & Hrun).
  destruct (read_attrs_returns (h5_attrs f) (Metadata.initial p))
    as (m1' & H1' & _ & _ & Hmodel1 & Hdata1).
  rewrite H1 in H1'. injection H1' as <-.
  destruct (read_events_returns f m1 Hok) as (m2' & H2' & _ & Hmodel2 & Hdata2 & _).
  rewrite H2 in H2'. injection H2' as <-.
  destruct (infer_from_path_returns host p m2)
    as (m3' & H3' & _ & _ & _ & _ & _ & Hmodel3 & Hdata3).
  rewrite H3 in H3'. injection H3' as <-.
  exists m3. split; [exact Hrun|].
  rewrite Hmodel3, Hdata3, Hmodel2, Hdata2, Hmodel1, Hdata1. simpl.
  split.
  - by destruct (attr_or (h5_attrs f) "model_name" "config_name").
  - by destruct (attr_or (h5_attrs f) "dataset_name" "dataset").
Qed.

(** X2.  On a readable container the dataset name is never absent: it
    is the [dataset_name] attribute, or else the [dataset] attribute,
    when that value is a non-empty string, and the stem of the resolved
    path otherwise; an empty attribute counts as no attribute. *)
Theorem dataset_name_never_absent (host : Host) (path p : string) (w : World) (f : H5File) :
  resolve host path = inr p ->
  h5open host p = inr f ->
  readable f = true ->
  exists md name,
    extract_metadata host path w = (w, inr md) /\
    Metadata.dataset_name md = Some name /\
    (forall v, attr_or (h5_attrs f) "dataset_name" "dataset" = Some v -> v <> "" -> name = v) /\
    (attr_or (h5_attrs f) "dataset_name" "dataset" = None
     \/ attr_or (h5_attrs f) "dataset_name" "dataset" = Some "" ->
     name = path_stem host p).
Proof.
  intros Hres Hopen Hok.
  destruct (extracted_names host path p w f Hres Hopen Hok) as (md & Hrun & _ & Hdata).
  simpl in Hdata.
  destruct (attr_or (h5_attrs f) "dataset_name" "dataset") as [v|] eqn:Hattr.
  - simpl in Hdata. destruct (String.eqb_spec v "") as [->|Hne]; simpl in Hdata.
    + exists md, (path_stem host p).
      repeat split; try assumption.
      intros v Hv Hne. congruence.
    + exists md, v. repeat split; try assumption.
      * intros v' Hv' _. congruence.
      * intros [?|Hv']; congruence.
  - simpl in Hdata. exists md, (path_stem host p).
    repeat split; try assumption. intros v Hv. discriminate.
Qed.

Lemma dataset_name_never_absent_witness :
  exists md,
    extract_metadata demo_host "/data/icarus/run12.h5" empty_world = (empty_world, inr md) /\
    Metadata.dataset_name md = Some "run12".
Proof.
  destruct (dataset_name_never_absent demo_host "/data/icarus/run12.h5" "/data/icarus/run12.h5"
              empty_world
              {| h5_attrs := list_to_map [("spine_version", "0.7.0")];
                 h5_members := {[ "events" := H5Table (list_to_map
                   [("run", ColValues [12; 12; 12; 12]); ("subrun", ColValues [1; 1; 1; 1]);
                    ("event", ColValues [5; 3; 9; 7])]) ]} |}
              eq_refl eq_refl eq_refl) as (md & name & Hrun & Hname & _ & Hstem).
  exists md. split; [exact Hrun|].
  rewrite Hname, Hstem; [reflexivity|]. left. reflexivity.
Defined.

(** X3.  On a readable container a non-empty [model_name] attribute,
    or else [config_name] attribute, is the model name whatever the path
    says; an empty one is treated as missing, so the site list is tried
    on the path, and when no site occurs there the empty string stays. *)
Theorem model_name_attribute_first (host : Host) (path p : string) (w : World)
    (f : H5File) (v : string) :
  resolve host path = inr p ->
  h5open host p = inr f ->
  readable f = true ->
  attr_or (h5_attrs f) "model_name" "config_name" = Some v ->
  exists md,
    extract_metadata host path w = (w, inr md) /\
    (v <> "" -> Metadata.model_name md = Some v) /\
    (v = "" ->
     Metadata.model_name md =
       Some (default "" (find (fun site => bool_decide (site ∈ path_parts host p))
                              known_sites))).
Proof.
  intros Hres Hopen Hok Hattr.
  destruct (extracted_names host path p w f Hres Hopen Hok) as (md & Hrun & Hmodel & _).
  rewrite Hattr in Hmodel. cbv zeta in Hmodel. cbn [truthy] in Hmodel.
  exists md. split; [exact Hrun|]. split.
  - intros Hne. destruct (String.eqb_spec v "") as [->|_]; [congruence|exact Hmodel].
  - intros ->. change (negb ("" =? "")%string) with false in Hmodel.
    rewrite Hmodel. by destruct (find _ known_sites).
Qed.

Lemma model_name_attribute_first_witness :
  exists md,
    extract_metadata named_host "/data/sbnd/x.h5" empty_world = (empty_world, inr md) /\
    Metadata.model_name md = Some "icarus_full_chain".
Proof.
  destruct (model_name_attribute_first named_host "/data/sbnd/x.h5" "/data/sbnd/x.h5"
              empty_world named_file "icarus_full_chain" eq_refl eq_refl eq_refl eq_refl)
    as (md & Hrun & Hname & _).
  exists md. split; [exact Hrun|]. apply Hname. discriminate.
Defined.

(** ** Run and subrun *)

Lemma read_attrs_keeps_runs attrs :
  keeps (fun md => (Metadata.run md, Metadata.subrun md)) (read_attrs attrs).
Proof. unfold read_attrs. repeat keeps_step. Qed.

(** X17.  On a readable container with an [events] table, [run] and
    [subrun] are the values of the first row of the columns of those
    names, truncated towards zero when the column holds floats; a column
    that is missing or has no row gives an absent field, not an error. *)
Theorem run_and_subrun_from_first_row (host : Host) (path p : string) (w : World)
    (f : H5File) (fields : gmap string Column) :
  resolve host path = inr p ->
  h5open host p = inr f ->
  readable f = true ->
  h5_members f !! "events" = Some (H5Table fields) ->
  exists md,
    extract_metadata host path w = (w, inr md) /\
    Metadata.run md =
      match fields !! "run" with
      | Some (ColValues vals) => head vals
      | Some (ColFloats (Finite q :: _)) => Some (Qtrunc q)
      | _ => None
      end /\
    Metadata.subrun md =
      match fields !! "subrun" with
      | Some (ColValues vals) => head vals
      | Some (ColFloats (Finite q :: _)) => Some (Qtrunc q)
      | _ => None
      end.
Proof.
  intros Hres Hopen Hok Hev.
  destruct (extract_metadata_readable host path p w f Hres Hopen Hok)
    as (m1 & m2 & m3 & H1 & H2 & H3 & Hrun).
  pose proof (read_attrs_keeps_runs (h5_attrs f) (Metadata.initial p)) as K1.
  unfold final in K1. rewrite H1 in K1. simpl in K1. injection K1 as Krun1 Ksub1.
  destruct (read_events_returns f m1 Hok) as (m2' & H2' & _ & _ & _ & Hfields).
  rewrite H2 in H2'. injection H2' as <-.
  destruct (Hfields fields Hev) as (Krun2 & Ksub2 & _).
  destruct (infer_from_path_returns host p m2) as (m3' & H3' & Krun3 & Ksub3 & _).
  rewrite H3 in H3'. injection H3' as <-.
  exists m3. split; [exact Hrun|].
  rewrite Krun3, Ksub3, Krun2, Ksub2, Krun1, Ksub1. unfold first_value.
  split; [by destruct (fields !! "run")|by destruct (fields !! "subrun")].
Qed.

Lemma run_and_subrun_from_first_row_witness :
  (exists md,
     extract_metadata demo_host "/data/icarus/run12.h5" empty_world = (empty_world, inr md) /\
     Metadata.run md = Some 12 /\ Metadata.subrun md = Some 1) /\
  (exists md,
     extract_metadata demo_host "/data/floatrun.h5" empty_world = (empty_world, inr md) /\
     Metadata.run md = Some (-1) /\ Metadata.subrun md = Some 2).
Proof.
  split.
  - destruct (run_and_subrun_from_first_row demo_host "/data/icarus/run12.h5"
                "/data/icarus/run12.h5" empty_world
                {| h5_attrs := list_to_map [("spine_version", "0.7.0")];
                   h5_members := {[ "events" := H5Table (list_to_map
                     [("run", ColValues [12; 12; 12; 12]); ("subrun", ColValues [1; 1; 1; 1]);
                      ("event", ColValues [5; 3; 9; 7])]) ]} |}
                (list_to_map
                     [("run", ColValues [12; 12; 12; 12]); ("subrun", ColValues [1; 1; 1; 1]);
                      ("event", ColValues [5; 3; 9; 7])])
                eq_refl eq_refl eq_refl eq_refl) as (md & Hrun & Hr & Hs).
    exists md. split; [exact Hrun|]. split; [exact Hr|exact Hs].
  - destruct (run_and_subrun_from_first_row demo_host "/data/floatrun.h5"
                "/data/floatrun.h5" empty_world
                {| h5_attrs := list_to_map [];
                   h5_members := {[ "events" := H5Table (list_to_map
                     [("run", ColFloats [Finite (-1.5)]);
                      ("subrun", ColFloats [Finite 2.5])]) ]} |}
                (list_to_map
                     [("run", ColFloats [Finite (-1.5)]); ("subrun", ColFloats [Finite 2.5])])
                eq_refl eq_refl eq_refl eq_refl) as (md & Hrun & Hr & Hs).
    exists md. split; [exact Hrun|]. split; [exact Hr|exact Hs].
Defined.

(** ** The table under the indexer *)

Lemma next_id_bound rows r :
  r ∈ rows -> (default 0 (SpineFile.id r) < next_id rows)%nat.
Proof.
  unfold next_id. induction rows as [|r' rows IH]; intros Hin.
  - by apply elem_of_nil in Hin.
  - apply elem_of_cons in Hin as [->|Hin]; simpl; [lia|].
    specialize (IH Hin). lia.
Qed.

Lemma next_id_fresh rows : Some (next_id rows) ∉ map SpineFile.id rows.
Proof.
  intros Hin. apply list_elem_of_fmap in Hin as (r & Hr & Hin).
  pose proof (next_id_bound rows r Hin) as Hlt. rewrite <- Hr in Hlt. simpl in Hlt. lia.
Qed.

(** A flush only appends, one row per pending object, and keeps the
    constraints of the table. *)
Lemma flush_grows host objs rows now rows' now' :
  flush host rows now objs = inr (rows', now') ->
  rows `prefix_of` rows' /\
  length rows' = (length rows + length objs)%nat /\
  (table_ok rows -> table_ok rows').
Proof.
  revert rows now. induction objs as [|o objs IH]; intros rows now Hflush; simpl in Hflush.
  - injection Hflush as <- <-. split; [reflexivity|]. split; [simpl; lia|auto].
  - destruct (insert_error host rows o); [discriminate|].
    destruct (SpineFile.file_path o) as [p|] eqn:Hp; [|discriminate].
    destruct (has_path rows p) eqn:Hhas; [discriminate|].
    apply IH in Hflush as (Hpre & Hlen & Hok).
    split; [|split].
    + etrans; [|exact Hpre]. by apply prefix_app_r.
    + rewrite Hlen, length_app. simpl. lia.
    + intros (Hstored & Hpaths & Hids). apply Hok. split; [|split].
      * apply Forall_app. split; [exact Hstored|].
        apply Forall_singleton. unfold stored_row. simpl. rewrite Hp. eauto.
      * rewrite map_app. apply NoDup_app. split; [exact Hpaths|]. split.
        -- intros x Hx Hx'. simpl in Hx'. apply list_elem_of_singleton in Hx'.
           rewrite Hp in Hx'. subst x.
           unfold has_path in Hhas. by apply bool_decide_eq_false in Hhas.
        -- simpl. apply NoDup_singleton.
      * rewrite map_app. apply NoDup_app. split; [exact Hids|]. split.
        -- intros x Hx Hx'. simpl in Hx'. apply list_elem_of_singleton in Hx'.
           subst x. by apply next_id_fresh in Hx.
        -- simpl. apply NoDup_singleton.
Qed.

(** One session grows into another: rows are only appended, and the
    constraints of the table carry over. *)
Lemma new_outcome_grows host file_path s :
  table s `prefix_of` table (fst (fst (new_outcome host file_path s))) /\
  (table_ok (table s) -> table_ok (table (fst (fst (new_outcome host file_path s))))).
Proof.
  unfold new_outcome. destruct (resolve host file_path) as [e|p]; [by split|].
  destruct (flush _ _ _ _) as [e|[rows now]] eqn:Hflush; simpl; [by split|].
  apply flush_grows in Hflush as (Hpre & _ & Hok). by split.
Qed.

Lemma candidate_outcome_grows host path skip_existing s :
  table s `prefix_of` table (fst (fst (candidate_outcome host path skip_existing s))) /\
  (table_ok (table s) ->
   table_ok (table (fst (fst (candidate_outcome host path skip_existing s))))).
Proof.
  unfold candidate_outcome, file_outcome.
  destruct (path_exists host path) as [e|[|]]; [by split| |by split].
  destruct (resolve host path) as [e|p]; [by split|].
  destruct skip_existing; cbv zeta; cbn [fst snd]; [|apply new_outcome_grows].
  destruct (query_error _ _ _); [by split|].
  destruct (find _ _); [by split|apply new_outcome_grows].
Qed.

Lemma loop_outcome_grows host file_list skip_existing s :
  table s `prefix_of` table (fst (fst (loop_outcome host file_list skip_existing s))) /\
  (table_ok (table s) ->
   table_ok (table (fst (fst (loop_outcome host file_list skip_existing s))))).
Proof.
  revert s. induction file_list as [|path rest IH]; intros s; [by split|].
  cbn [loop_outcome].
  destruct (candidate_outcome_grows host path skip_existing s) as [Hpre1 Hok1].
  destruct (candidate_outcome host path skip_existing s) as [[s1 m1] [e|ok]];
    cbn [fst snd] in *; [by split|].
  destruct (IH s1) as [Hpre2 Hok2].
  split; [by etrans|auto].
Qed.

(** The candidates and the session [index_files] starts its loop on. *)
Lemma index_files_world host db_url files skip_existing w :
  let w' := fst (index_files host db_url files skip_existing w) in
  (table (session w') = table (session w) /\ stdout w' = stdout w)
  \/ exists file_list lines,
       let r := loop_outcome host file_list skip_existing
                  {| table := table (session w); pending := []; clock := clock (session w) |} in
       table (session w') = table (fst (fst r)) /\
       stdout w' = stdout w ++ lines /\
       filter is_indexed lines = filter is_indexed (snd (fst r)).
Proof.
  cbv zeta. destruct (connect host db_url) as [e|] eqn:Hconn.
  { left. unfold index_files. by rewrite Hconn. }
  rewrite (index_files_eq _ _ _ _ _ Hconn). cbv zeta.
  destruct (expansion host files) as [e|file_list]; [by left|].
  right. exists file_list.
  destruct (loop_outcome host file_list skip_existing _) as [[s1 m1] [e|[n1 e1]]];
    cbn [fst snd session stdout table].
  - eexists. split; [reflexivity|]. split; [reflexivity|].
    rewrite filter_cons. cbn [is_indexed].
    by destruct (decide (Is_true false)) as [[]|_].
  - eexists. split; [reflexivity|]. split; [reflexivity|].
    rewrite filter_cons. cbn [is_indexed].
    destruct (decide (Is_true false)) as [[]|_].
    rewrite filter_app. simpl. by rewrite app_nil_r.
Qed.

(** X4.  [index_files] keeps the constraints of the table: started on a
    table of stored rows with no path and no key twice, it leaves such a
    table, whatever the patterns, the flag and the files are, and
    whichever way it ends. *)
Theorem index_files_keeps_table_constraints (host : Host) (db_url : string)
    (files : list string) (skip_existing : bool) (w : World) :
  table_ok (table (session w)) ->
  table_ok (table (session (fst (index_files host db_url files skip_existing w)))).
Proof.
  intros Hok.
  destruct (index_files_world host db_url files skip_existing w)
    as [[-> _]|(file_list & lines & -> & _)]; [exact Hok|].
  by apply loop_outcome_grows.
Qed.

Lemma index_files_keeps_table_constraints_witness :
  table_ok (table (session (fst (index_files demo_host "sqlite:///spine_files.db"
    ["/data/icarus/*.h5"; "/data/corrupt.h5"; "/data/icarus/run12.h5"] false empty_world)))).
Proof.
  apply index_files_keeps_table_constraints.
  simpl. repeat split; constructor.
Defined.

(** X5.  [index_files] only appends: the rows that were in the table
    are still there afterwards, unchanged and in place, in front of the
    new ones. *)
Theorem index_files_only_appends (host : Host) (db_url : string)
    (files : list string) (skip_existing : bool) (w : World) :
  exists new_rows,
    table (session (fst (index_files host db_url files skip_existing w)))
    = table (session w) ++ new_rows.
Proof.
  destruct (index_files_world host db_url files skip_existing w)
    as [[-> _]|(file_list & lines & -> & _)]; [exists []; by rewrite app_nil_r|].
  destruct (loop_outcome_grows host file_list skip_existing
              {| table := table (session w); pending := []; clock := clock (session w) |})
    as [[k Hk] _].
  exists k. exact Hk.
Qed.






(** ** One file: what is stored can be found, what failed left nothing *)

Lemma find_app_new rows r p :
  has_path rows p = false -> SpineFile.file_path r = Some p ->
  find (fun r => bool_decide (SpineFile.file_path r = Some p)) (rows ++ [r]) = Some r.
Proof.
  intros Hhas Hr. induction rows as [|r' rows IH]; simpl.
  - by rewrite bool_decide_true.
  - unfold has_path in Hhas. apply bool_decide_eq_false in Hhas. simpl in Hhas.
    rewrite bool_decide_false.
    + apply IH. unfold has_path. apply bool_decide_eq_false.
      intros Hin. apply Hhas. by right.
    + intros Heq. apply Hhas. rewrite Heq. by left.
Qed.

(** X7.  Insert then look up.  When [index_file] returns [True] for a
    path whose resolution is stable, the query by the resolved path finds
    a row under that path afterwards; and when the path was not in the
    table before, that row is the one row the call appended: it has a key
    that no row had before, a creation time, and each of the ten fields
    of the dict [extract_metadata] returns for the path. *)
Theorem indexed_file_is_found (host : Host) (path p : string) (skip_existing : bool)
    (w w' : World) :
  resolve host path = inr p ->
  resolve host p = inr p ->
  pending (session w) = [] ->
  query_error host (table (session w')) p = None ->
  index_file host path skip_existing w = (w', inr true) ->
  exists r,
    session_query_first host p w' = (w', inr (Some r)) /\
    SpineFile.file_path r = Some p /\
    (has_path (table (session w)) p = false ->
     exists md w0,
       extract_metadata host p w = (w0, inr md) /\
       table (session w') = table (session w) ++ [r] /\
       SpineFile.id r ∉ map SpineFile.id (table (session w)) /\
       is_Some (SpineFile.id r) /\
       is_Some (SpineFile.created_at r) /\
       SpineFile.file_path r = Metadata.file_path md /\
       SpineFile.spine_version r = Metadata.spine_version md /\
       SpineFile.spine_prod_version r = Metadata.spine_prod_version md /\
       SpineFile.model_name r = Metadata.model_name md /\
       SpineFile.dataset_name r = Metadata.dataset_name md /\
       SpineFile.run r = Metadata.run md /\
       SpineFile.subrun r = Metadata.subrun md /\
       SpineFile.event_min r = Metadata.event_min md /\
       SpineFile.event_max r = Metadata.event_max md /\
       SpineFile.num_events r = Metadata.num_events md).
Proof.
  intros Hres Hidem Hpend Hquery Hrun. rewrite index_file_eq in Hrun.
  injection Hrun as Hw' Hok. subst w'.
  unfold session_query_first, bind, gets. rewrite Hquery. unfold ret.
  cbn [after session fst] in *.
  assert (Hfresh : snd (new_outcome host p (session w)) = true ->
    exists r,
      find (fun r => bool_decide (SpineFile.file_path r = Some p))
           (table (fst (fst (new_outcome host p (session w))))) = Some r /\
      SpineFile.file_path r = Some p /\
      (has_path (table (session w)) p = false ->
       exists md w0,
         extract_metadata host p w = (w0, inr md) /\
         table (fst (fst (new_outcome host p (session w)))) = table (session w) ++ [r] /\
         SpineFile.id r ∉ map SpineFile.id (table (session w)) /\
         is_Some (SpineFile.id r) /\
         is_Some (SpineFile.created_at r) /\
         SpineFile.file_path r = Metadata.file_path md /\
         SpineFile.spine_version r = Metadata.spine_version md /\
         SpineFile.spine_prod_version r = Metadata.spine_prod_version md /\
         SpineFile.model_name r = Metadata.model_name md /\
         SpineFile.dataset_name r = Metadata.dataset_name md /\
         SpineFile.run r = Metadata.run md /\
         SpineFile.subrun r = Metadata.subrun md /\
         SpineFile.event_min r = Metadata.event_min md /\
         SpineFile.event_max r = Metadata.event_max md /\
         SpineFile.num_events r = Metadata.num_events md)).
  { rewrite (new_outcome_cases host p _ Hpend Hidem). cbv zeta.
    destruct (insert_error _ _ _); [discriminate|].
    destruct (has_path (table (session w)) p) eqn:Hhas; [discriminate|]. intros _.
    cbn [fst snd table].
    eexists. split; [apply (find_app_new _ _ p Hhas), stored_file_path|].
    split; [apply stored_file_path|].
    intros _. eexists _, _. split; [rewrite extract_metadata_eq, Hidem; reflexivity|].
    split; [reflexivity|]. split; [apply next_id_fresh|].
    split; [by eexists|]. split; [by eexists|]. repeat split. }
  unfold file_outcome in Hok |- *. rewrite Hres in Hok |- *. cbv zeta in Hok |- *.
  destruct skip_existing.
  - destruct (query_error host (table (session w)) p); [discriminate|].
    destruct (find _ (table (session w))) as [r|] eqn:Hfind.
    + cbn [fst]. exists r. rewrite Hfind. split; [reflexivity|].
      pose proof (find_some _ _ Hfind) as [_ Hr]. apply bool_decide_eq_true in Hr.
      split; [exact Hr|].
      intros Hhas. apply find_some_has_path in Hfind. congruence.
    + cbn [fst snd] in Hok |- *. injection Hok as Hok.
      destruct (Hfresh Hok) as (r & Hr & Hrest). exists r. by rewrite Hr.
  - cbn [fst snd] in Hok |- *. injection Hok as Hok.
    destruct (Hfresh Hok) as (r & Hr & Hrest). exists r. by rewrite Hr.
Qed.

Lemma indexed_file_is_found_witness :
  let w' := fst (index_file demo_host "/data/icarus/run12.h5" true empty_world) in
  exists r,
    session_query_first demo_host "/data/icarus/run12.h5" w' = (w', inr (Some r)) /\
    table (session w') = [r] /\
    SpineFile.file_path r = Some "/data/icarus/run12.h5" /\
    SpineFile.spine_version r = Some "0.7.0" /\
    SpineFile.model_name r = Some "icarus" /\
    SpineFile.dataset_name r = Some "run12" /\
    SpineFile.run r = Some 12 /\
    SpineFile.subrun r = Some 1 /\
    SpineFile.event_min r = Some 3 /\
    SpineFile.event_max r = Some 9 /\
    SpineFile.num_events r = Some 4.
Proof.
  intros w'.
  assert (Hrun : index_file demo_host "/data/icarus/run12.h5" true empty_world = (w', inr true))
    by (vm_compute; reflexivity).
  destruct (indexed_file_is_found demo_host "/data/icarus/run12.h5" "/data/icarus/run12.h5"
              true empty_world w' eq_refl eq_refl eq_refl eq_refl Hrun)
    as (r & Hfind & Hpath & Hnew).
  destruct (Hnew eq_refl)
    as (md & w0 & Hmd & Htable & _ & _ & _ & _ & Hv & _ & Hm & Hd & Hr & Hs & Hlo & Hhi & Hn).
  assert (Hvalue : inr md = snd (extract_metadata demo_host "/data/icarus/run12.h5" empty_world))
    by (by rewrite Hmd).
  vm_compute in Hvalue. injection Hvalue as ->.
  exists r. repeat split; assumption.
Defined.



(** ** Running a batch again *)






(** ** The [inject] command *)

Lemma stripped_lines_filter sh handle :
  stripped_lines sh handle = filter (fun x => x <> "") (map (strip sh) handle).
Proof.
  induction handle as [|line rest IH]; [reflexivity|].
  cbn [stripped_lines map truthy]. rewrite filter_cons, IH.
  destruct (String.eqb_spec (strip sh line) "") as [Heq|Hne]; cbn [negb].
  - by destruct (decide (strip sh line <> "")).
  - by destruct (decide (strip sh line <> "")).
Qed.

(** X10.  [_load_files_list] raises what opening or reading the list
    file raises; otherwise it returns the stripped lines in their order,
    the blank ones left out, so that no entry is empty and there are at
    most as many entries as lines. *)
Theorem load_files_list_entries (sh : Shell) (path : string) (w : World) :
  match read_lines sh path with
  | inl e => _load_files_list sh path w = (w, inl e)
  | inr handle =>
      exists files,
        _load_files_list sh path w = (w, inr files) /\
        files = filter (fun x => x <> "") (map (strip sh) handle) /\
        Forall (fun x => x <> "") files /\
        (length files <= length handle)%nat
  end.
Proof.
  unfold _load_files_list. destruct (read_lines sh path) as [e|handle]; [reflexivity|].
  exists (stripped_lines sh handle). split; [reflexivity|].
  rewrite stripped_lines_filter. split; [reflexivity|]. split.
  - apply Forall_forall. intros x Hx. by apply list_elem_of_filter in Hx as [Hx _].
  - etrans; [apply length_filter|]. by rewrite length_map.
Qed.

Lemma stripped_lines_blank sh handle :
  Forall (fun line => strip sh line = "") handle -> stripped_lines sh handle = [].
Proof.
  induction 1 as [|line rest Hline _ IH]; [reflexivity|].
  cbn [stripped_lines truthy]. rewrite Hline. exact IH.
Qed.

(** X11.  [_run_inject] refuses to run without files: with no list file
    and no sources, and also with a list file that holds only blank
    lines, whatever the sources given beside it, it raises [ValueError]
    before anything is printed and before the store is contacted. *)
Theorem run_inject_without_files (host : Host) (sh : Shell) (db_url : string)
    (sources : option (list string)) (source_list : option string)
    (skip_existing : bool) (w : World) :
  (truthy source_list = false /\ truthy_list sources = false)
  \/ (exists p handle,
        source_list = Some p /\ p <> "" /\ read_lines sh p = inr handle /\
        Forall (fun line => strip sh line = "") handle) ->
  _run_inject host sh db_url sources source_list skip_existing w
  = (w, inl (ValueError "No files provided for indexing.")).
Proof.
  intros [[Hlist Hsrc]|(p & handle & -> & Hp & Hread & Hblank)]; unfold _run_inject, bind.
  - rewrite Hlist. unfold ret. by rewrite Hsrc.
  - cbn [truthy]. destruct (String.eqb_spec p "") as [?|_]; [done|]. cbn [negb from_option id].
    unfold _load_files_list. rewrite Hread. unfold ret.
    by rewrite (stripped_lines_blank sh handle Hblank).
Qed.

Lemma run_inject_without_files_witness :
  _run_inject demo_host
    (Demo.shell (list_to_map [("files.txt", [" " +:+ String "010" ""; "" +:+ String "009" ""])]))
    "sqlite:///spine_files.db" (Some ["/data/icarus/run12.h5"]) (Some "files.txt") true
    empty_world
  = (empty_world, inl (ValueError "No files provided for indexing.")).
Proof.
  apply run_inject_without_files. right.
  exists "files.txt", [" " +:+ String "010" ""; "" +:+ String "009" ""].
  split; [reflexivity|]. split; [discriminate|]. split; [reflexivity|].
  repeat constructor.
Defined.

(** X12.  The result of [_run_inject] does not tell how the files
    fared.  Once there is at least one file, taken from the list file
    when one is named and from the sources otherwise, it does exactly the
    run of [index_files] over those files: it returns 0 when that run
    returns, whatever its counts are, and what that run raises (the store
    that cannot be reached, or a call outside a [try]) it raises too. *)
Theorem run_inject_follows_index_files (host : Host) (sh : Shell) (db_url : string)
    (sources : option (list string)) (source_list : option string)
    (skip_existing : bool) (w : World) (files : list string) :
  files <> [] ->
  (truthy source_list = false /\ sources = Some files)
  \/ (exists p handle,
        source_list = Some p /\ p <> "" /\ read_lines sh p = inr handle /\
        files = filter (fun x => x <> "") (map (strip sh) handle)) ->
  _run_inject host sh db_url sources source_list skip_existing w
  = match index_files host db_url files skip_existing w with
    | (w', inr _) => (w', inr 0)
    | (w', inl e) => (w', inl e)
    end.
Proof.
  intros Hne Hfiles. unfold _run_inject, bind.
  destruct Hfiles as [[Hlist ->]|(p & handle & -> & Hp & Hread & ->)].
  - rewrite Hlist. unfold ret. destruct files as [|f files]; [done|].
    cbn [truthy_list negb from_option id].
    by destruct (index_files host db_url (f :: files) skip_existing w) as [w' [e|r]].
  - cbn [truthy]. destruct (String.eqb_spec p "") as [?|_]; [done|]. cbn [negb from_option id].
    unfold _load_files_list. rewrite Hread. unfold ret.
    rewrite stripped_lines_filter.
    destruct (filter _ (map (strip sh) handle)) as [|f files] eqn:Hf; [done|].
    cbn [truthy_list negb from_option id].
    by destruct (index_files host db_url (f :: files) skip_existing w) as [w' [e|r]].
Qed.

Lemma run_inject_follows_index_files_witness :
  (exists w',
     _run_inject demo_host (Demo.shell ∅) "sqlite:///spine_files.db"
       (Some ["/data/missing.h5"]) None true empty_world = (w', inr 0) /\
     stdout w' = [Found 1; NotFound "/data/missing.h5"; Complete 0 1]) /\
  (exists w',
     _run_inject demo_host (Demo.shell ∅) "sqlite:///spine_files.db"
       (Some [String.concat "" (repeat "aaaaaaaaaaaaaaaa" 17)]) None true empty_world
     = (w', inl (OSError ("[Errno 36] File name too long: '"
                          +:+ String.concat "" (repeat "aaaaaaaaaaaaaaaa" 17) +:+ "'"))) /\
     stdout w' = [Found 1]).
Proof.
  split.
  - pose proof (run_inject_follows_index_files demo_host (Demo.shell ∅)
                  "sqlite:///spine_files.db" (Some ["/data/missing.h5"]) None true empty_world
                  ["/data/missing.h5"] ltac:(discriminate)
                  (or_introl (conj eq_refl eq_refl))) as Hinject.
    eexists. split; [rewrite Hinject; vm_compute; reflexivity|]. reflexivity.
  - pose proof (run_inject_follows_index_files demo_host (Demo.shell ∅)
                  "sqlite:///spine_files.db"
                  (Some [String.concat "" (repeat "aaaaaaaaaaaaaaaa" 17)]) None true empty_world
                  [String.concat "" (repeat "aaaaaaaaaaaaaaaa" 17)] ltac:(discriminate)
                  (or_introl (conj eq_refl eq_refl))) as Hinject.
    eexists. split; [rewrite Hinject; vm_compute; reflexivity|]. reflexivity.
Defined.
(** ** The browse callbacks *)


Lemma apply_filter_elem column value query r :
  r ∈ apply_filter column value query <-> r ∈ query /\ passes column value r.
Proof.
  unfold apply_filter, passes. destruct (truthy value).
  - rewrite list_elem_of_filter. naive_solver.
  - naive_solver.
Qed.

Lemma filtered_query_elem version model dataset rows r :
  r ∈ filtered_query version model dataset rows <->
  r ∈ rows /\ passes SpineFile.spine_version version r
  /\ passes SpineFile.model_name model r /\ passes SpineFile.dataset_name dataset r.
Proof. unfold filtered_query. rewrite !apply_filter_elem. naive_solver. Qed.



Lemma query_runs_elem br version model dataset limit rows r :
  browser_ok br ->
  r ∈ query_runs br version model dataset limit rows ->
  r ∈ filtered_query version model dataset rows.
Proof.
  intros Hbr Hin. unfold query_runs in Hin.
  apply elem_of_take in Hin as (i & Hi & _).
  apply list_elem_of_lookup_2 in Hi.
  by rewrite (order_permutation br Hbr) in Hi.
Qed.



(** X14.  The filters of [update_table] are exact.  Every run selected
    is a row of the table that passes each filter that is set, a filter
    left empty or absent letting every row pass; and when the limit is
    not below the filtered count, every such row is selected. *)
Theorem update_table_filters_exact (br : Browser) (version model dataset : option string)
    (limit : nat) (rows : list SpineFile.t) :
  browser_ok br ->
  (forall r, r ∈ query_runs br version model dataset limit rows ->
     r ∈ rows /\ passes SpineFile.spine_version version r
     /\ passes SpineFile.model_name model r /\ passes SpineFile.dataset_name dataset r) /\
  ((length (filtered_query version model dataset rows) <= limit)%nat ->
   forall r, r ∈ rows -> passes SpineFile.spine_version version r ->
     passes SpineFile.model_name model r -> passes SpineFile.dataset_name dataset r ->
     r ∈ query_runs br version model dataset limit rows).
Proof.
  intros Hbr. split.
  - intros r Hr. by apply (query_runs_elem br _ _ _ _ _ _ Hbr), filtered_query_elem in Hr.
  - intros Hlimit r Hr Hv Hm Hd. unfold query_runs.
    rewrite take_ge by (by rewrite (order_permutation br Hbr)).
    rewrite (order_permutation br Hbr). apply filtered_query_elem. auto.
Qed.

(** X15.  [update_table] shows the newest runs first and, when the
    limit cuts, keeps the newest: the runs selected, followed by the runs
    left out, are the filtered rows in an order where no run comes before
    one created later. *)
Theorem update_table_newest_first (br : Browser) (version model dataset : option string)
    (limit : nat) (rows : list SpineFile.t) :
  browser_ok br ->
  exists left_out,
    query_runs br version model dataset limit rows ++ left_out
      ≡ₚ filtered_query version model dataset rows /\
    StronglySorted newer_first (query_runs br version model dataset limit rows ++ left_out) /\
    (left_out <> [] -> length (query_runs br version model dataset limit rows) = limit).
Proof.
  intros Hbr.
  exists (drop limit (order_by_created_desc br (filtered_query version model dataset rows))).
  unfold query_runs. rewrite take_drop. split; [apply (order_permutation br Hbr)|].
  split; [apply (order_sorted br Hbr)|].
  intros Hne. rewrite length_take. apply Nat.min_l.
  destruct (Nat.le_gt_cases limit
              (length (order_by_created_desc br (filtered_query version model dataset rows))))
    as [Hle|Hgt]; [exact Hle|].
  exfalso. apply Hne. apply drop_ge. lia.
Qed.

Lemma column_options_offers br column rows :
  browser_ok br -> offers column rows (column_options br column rows).
Proof.
  intros Hbr. unfold offers, column_options. split.
  - assert (Hinj : Inj (=) (=) (fun v : string => (v, v))).
    { intros x y Hxy. by injection Hxy. }
    apply (NoDup_fmap_2 (fun v : string => (v, v))).
    apply NoDup_filter, (distinct_NoDup br Hbr).
  - intros label value. rewrite list_elem_of_fmap. split.
    + intros (v & Hv & Hin). injection Hv as -> ->.
      apply list_elem_of_filter in Hin as [Htruthy Hin].
      apply (distinct_elem_of br Hbr), list_elem_of_omap in Hin.
      split; [reflexivity|]. split; [|exact Hin].
      intros ->. discriminate Htruthy.
    + intros (-> & Hne & Hin). exists value. split; [reflexivity|].
      apply list_elem_of_filter. split.
      * simpl. by destruct (String.eqb_spec value "").
      * by apply (distinct_elem_of br Hbr), list_elem_of_omap.
Qed.

Lemma offered_value_selects column rows options label value :
  offers column rows options -> (label, value) ∈ options ->
  apply_filter column (Some value) rows <> [].
Proof.
  intros [_ Hoff] Hin. apply Hoff in Hin as (_ & Hne & r & Hr & Hcol).
  assert (Hsel : r ∈ apply_filter column (Some value) rows).
  { apply apply_filter_elem. split; [exact Hr|]. intros _. exact Hcol. }
  intros Hnil. rewrite Hnil in Hsel. by apply elem_of_nil in Hsel.
Qed.

(** X16.  The dropdowns offer what is in the table.  For each of the
    three columns [update_filter_options] returns, without touching
    anything, each non-empty value that occurs in the column, once and as
    its own label, and nothing else; so choosing an offered version as
    the only filter never selects an empty result. *)
Theorem filter_options_offer_table_values (br : Browser) (w : World) :
  browser_ok br ->
  let rows := table (session w) in
  exists versions models datasets,
    update_filter_options br w = (w, inr (versions, models, datasets)) /\
    offers SpineFile.spine_version rows versions /\
    offers SpineFile.model_name rows models /\
    offers SpineFile.dataset_name rows datasets /\
    forall label value,
      (label, value) ∈ versions -> filtered_query (Some value) None None rows <> [].
Proof.
  intros Hbr rows. eexists _, _, _. split; [reflexivity|].
  split; [by apply column_options_offers|].
  split; [by apply column_options_offers|].
  split; [by apply column_options_offers|].
  intros label value Hin. unfold filtered_query.
  change (apply_filter SpineFile.dataset_name None ?q) with q.
  change (apply_filter SpineFile.model_name None ?q) with q.
  eapply offered_value_selects; [|exact Hin]. by apply column_options_offers.
Qed.

(** The demonstration browser keeps the promises of SQL. *)
Lemma demo_browser_ok : browser_ok Demo.browser.
Proof.
  assert (Htrans : Transitive Demo.newer).
  { intros a b c. unfold Demo.newer. lia. }
  assert (Htotal : Total Demo.newer).
  { intros a b. unfold Demo.newer. lia. }
  split.
  - intros l. apply merge_sort_Permutation.
  - intros l. simpl.
    pose proof (StronglySorted_merge_sort Demo.newer l) as Hsorted.
    induction Hsorted as [|a l' _ IH Hall]; constructor; [exact IH|].
    eapply Forall_impl; [exact Hall|].
    intros b Hab. unfold Demo.newer in Hab. unfold newer_first.
    by destruct (SpineFile.created_at a), (SpineFile.created_at b).
  - intros l. apply NoDup_remove_dups.
  - intros l x. apply elem_of_remove_dups.
Qed.



Lemma update_table_filters_exact_witness :
  Forall (fun r => SpineFile.spine_version r = Some "0.7.0")
    (query_runs Demo.browser (Some "0.7.0") None None 50 (table (session indexed_world))).
Proof.
  apply Forall_forall. intros r Hr.
  destruct (update_table_filters_exact Demo.browser (Some "0.7.0") None None 50
              (table (session indexed_world)) demo_browser_ok) as [Hsound _].
  destruct (Hsound r Hr) as (_ & Hv & _). by apply Hv.
Defined.

Lemma update_table_newest_first_witness :
  exists left_out,
    query_runs Demo.browser None None None 1 (table (session indexed_world)) ++ left_out
      ≡ₚ table (session indexed_world) /\
    (left_out <> [] ->
     length (query_runs Demo.browser None None None 1 (table (session indexed_world))) = 1%nat).
Proof.
  destruct (update_table_newest_first Demo.browser None None None 1
              (table (session indexed_world)) demo_browser_ok)
    as (left_out & Hperm & _ & Hlen).
  exists left_out. split; [exact Hperm|exact Hlen].
Defined.

Lemma filter_options_offer_table_values_witness :
  exists versions models datasets,
    update_filter_options Demo.browser indexed_world
    = (indexed_world, inr (versions, models, datasets)) /\
    offers SpineFile.spine_version (table (session indexed_world)) versions.
Proof.
  destruct (filter_options_offer_table_values Demo.browser indexed_world demo_browser_ok)
    as (versions & models & datasets & Hrun & Hoff & _).
  exists versions, models, datasets. split; [exact Hrun|exact Hoff].
Defined.


(** ** Browsing after indexing *)


